(** * Barcode generator: a shallow embedding of the generation workflow

    The development follows [src/try.py] (the wx front end with its
    generators) and [src/logic/barcode_generator.py] (the stand-alone
    generator class).  Python strings are sequences of Unicode code points,
    Python exceptions are values of an error type, and the file system, the
    console and the saved documents form an explicit state that every
    operation threads.  The barcode library, the document library and the
    operating system are collaborators whose behaviour is not part of the
    repository: they appear as the fields of two classes, [Unicode] and
    [World]. *)

From Stdlib Require Import ZArith NArith List String Ascii Decimal DecimalNat Lia.
From Stdlib Require Import Floats.SpecFloat.
From stdpp Require Import base gmap sets list.

Local Open Scope N_scope.

(** ** Python strings *)

(** A Python [str] is a sequence of code points. *)
Abbreviation pystr := (list N).

(** The code points of a literal. *)
Definition str (s : string) : pystr :=
  List.map N_of_ascii (list_ascii_of_string s).

(** The character tables of the interpreter outside the ASCII range
    ([str.isalnum], [str.isspace] and [str.upper] consult the Unicode
    database there). *)
Class Unicode := {
  uni_alnum : N -> bool;
  uni_space : N -> bool;
  uni_upper : N -> pystr
}.

Section PyStr.
Context {U : Unicode}.

Definition between (lo hi c : N) : bool := (lo <=? c) && (c <=? hi).

(** [c.isalnum()] *)
Definition isalnum (c : N) : bool :=
  if c <? 128
  then between 48 57 c || between 65 90 c || between 97 122 c
  else uni_alnum c.

(** [c.isspace()]: tab to carriage return, the four separators, space. *)
Definition isspace (c : N) : bool :=
  if c <? 128
  then between 9 13 c || between 28 31 c || (c =? 32)
  else uni_space c.

(** [c in (' ', '-', '_')] *)
Definition in_space_dash_underscore (c : N) : bool :=
  (c =? 32) || (c =? 45) || (c =? 95).

(** The condition of the generator expression in the three sanitising
    lines: [c.isalnum() or c in (' ', '-', '_')]. *)
Definition keeps (c : N) : bool := isalnum c || in_space_dash_underscore c.

(** [s.rstrip()] *)
Fixpoint rstrip (s : pystr) : pystr :=
  match s with
  | [] => []
  | c :: s' =>
      match rstrip s' with
      | [] => if isspace c then [] else [c]
      | r => c :: r
      end
  end.

(** [s.lstrip()] and [s.strip()] *)
Fixpoint lstrip (s : pystr) : pystr :=
  match s with
  | [] => []
  | c :: s' => if isspace c then lstrip s' else s
  end.

Definition strip (s : pystr) : pystr := rstrip (lstrip s).

(** ["".join(c for c in s if c.isalnum() or c in (' ', '-', '_')).rstrip()] *)
Definition sanitize (s : pystr) : pystr := rstrip (List.filter keeps s).

(** [c.upper()] and [s.upper()] *)
Definition upper_char (c : N) : pystr :=
  if c <? 128 then (if between 97 122 c then [c - 32] else [c]) else uni_upper c.

Definition upper (s : pystr) : pystr := List.flat_map upper_char s.

End PyStr.

(** ** Formatting integers *)

Fixpoint uint_chars (u : Decimal.uint) : pystr :=
  match u with
  | Nil => []
  | D0 u => 48 :: uint_chars u
  | D1 u => 49 :: uint_chars u
  | D2 u => 50 :: uint_chars u
  | D3 u => 51 :: uint_chars u
  | D4 u => 52 :: uint_chars u
  | D5 u => 53 :: uint_chars u
  | D6 u => 54 :: uint_chars u
  | D7 u => 55 :: uint_chars u
  | D8 u => 56 :: uint_chars u
  | D9 u => 57 :: uint_chars u
  end.

(** [f"{n}"] for a natural number. *)
Definition fmt_d (n : nat) : pystr := uint_chars (Nat.to_uint n).

(** [f"{n:04d}"]: at least four digits, zeros on the left. *)
Definition fmt_04d (n : nat) : pystr :=
  List.repeat 48 (4 - List.length (fmt_d n)) ++ fmt_d n.

(** [text[:k]] *)
Definition slice_to (k : nat) (s : pystr) : pystr := List.firstn k s.

(** ** Python values, exceptions and the machine state *)

(** Binary64 floating-point numbers, as data. *)
Abbreviation float := spec_float.

Definition prec : Z := 53.
Definition emax : Z := 1024.

(** The float nearest to [m * 2^e]. *)
Definition float_of (m e : Z) : float := binary_normalize prec emax m e false.

(** The values that settings, options and coordinates hold. *)
Inductive pyval :=
| PStr (s : pystr)
| PFloat (f : float)
| PInt (z : Z)
| PBool (b : bool).

(** Truth value of an object, as [not v] tests it. *)
Definition truthy (v : pyval) : bool :=
  match v with
  | PStr s => negb (Nat.eqb (List.length s) 0)
  | PFloat f => match f with S754_zero _ => false | _ => true end
  | PInt z => negb (Z.eqb z 0)
  | PBool b => b
  end.

(** A Python [dict] with string keys. *)
Abbreviation dict := (gmap pystr pyval).

Inductive barcode_class :=
| Code128 | Code39 | EAN13 | EAN8 | UPCA | ITF | CODABAR | ISBN13.

Inductive writer := ImageWriter | SVGWriter.

(** The object [barcode_class(text, writer=w)]. *)
Record barcode := { code_class : barcode_class; code_text : pystr; code_writer : writer }.

(** The exceptions of the modelled paths. *)
Inductive exn :=
| KeyError (key : pystr)        (* a dict subscript on a missing key *)
| PdfUnavailable                (* Exception("PDF support not available. ...") *)
| BarcodeError (c : barcode_class) (text : pystr)   (* the barcode class rejects the text *)
| WriterError (path : pystr)    (* code.save fails *)
| CanvasError (path : pystr)    (* canvas.Canvas, drawImage or c.save fails *)
| OSError (path : pystr)        (* os.remove fails *)
| OverflowError                 (* int() of an infinity, float() of a huge int *)
| ValueError                    (* int() of a NaN *)
| ZeroDivisionError.            (* division by zero *)

(** What a canvas has been asked to do. *)
Inductive canvas_op :=
| DrawImage (image : pystr) (x y : pyval) (width height : Z)
| ShowPage.

(** What [print] wrote. *)
Inductive message :=
| ItemError (text : pystr) (e : exn)    (* "Error processing item {text}: {e}" *)
| CombinedError (e : exn).              (* "Error creating combined PDF: {e}" *)

(** Content of the settings file, as [load_settings] sees it:
    - a JSON object, which [json.load] gives back as a dictionary;
    - a JSON document that is not an object (an array, a string, a number,
      [true], [false], [null]): [dict.update] takes it for a sequence of
      pairs, applies the pairs at its head in order and raises at the first
      element that is not a pair, or at once when the document is not a
      sequence; [applied] are the pairs it gets to apply;
    - bytes that [json.load] rejects.
    Keys are strings and values are strings, numbers and booleans; documents
    that bring other keys or values into [self.settings] are not represented. *)
Inductive file_data :=
| JsonObject (d : dict)
| JsonSequence (applied : list (pystr * pyval))
| Unreadable.

Record State := {
  files : gset pystr;                      (* image and document files, by path *)
  documents : gmap pystr (list canvas_op); (* what each saved document holds *)
  canvas : option (pystr * list canvas_op);(* the canvas being drawn: its path, its content *)
  settings_file : option file_data;        (* barcode_generator_settings.json *)
  console : list message;                  (* standard output *)
  gauge : nat                              (* progress_gauge.GetValue() *)
}.

Definition set_files (f : gset pystr -> gset pystr) (st : State) : State :=
  {| files := f (files st); documents := documents st; canvas := canvas st;
     settings_file := settings_file st; console := console st; gauge := gauge st |}.

Definition set_documents (f : gmap pystr (list canvas_op) -> gmap pystr (list canvas_op))
    (st : State) : State :=
  {| files := files st; documents := f (documents st); canvas := canvas st;
     settings_file := settings_file st; console := console st; gauge := gauge st |}.

Definition set_canvas (c : option (pystr * list canvas_op)) (st : State) : State :=
  {| files := files st; documents := documents st; canvas := c;
     settings_file := settings_file st; console := console st; gauge := gauge st |}.

Definition set_settings_file (d : option file_data) (st : State) : State :=
  {| files := files st; documents := documents st; canvas := canvas st;
     settings_file := d; console := console st; gauge := gauge st |}.

Definition set_console (f : list message -> list message) (st : State) : State :=
  {| files := files st; documents := documents st; canvas := canvas st;
     settings_file := settings_file st; console := f (console st); gauge := gauge st |}.

Definition set_gauge (n : nat) (st : State) : State :=
  {| files := files st; documents := documents st; canvas := canvas st;
     settings_file := settings_file st; console := console st; gauge := n |}.

(** The collaborators: the barcode library, the document library, the
    operating system.  Each answer may depend on the state it is asked in. *)
Class World := {
  (* was the import of reportlab and PIL successful *)
  HAS_PDF_SUPPORT : bool;
  (* reportlab.lib.pagesizes.A4: width and height of the page *)
  A4 : float * float;
  (* barcode_class(text, writer=w): does the constructor accept the text *)
  accepts : barcode_class -> pystr -> bool;
  (* code.save(name, options): the file the writer creates, if it can *)
  writer_save : State -> barcode -> pystr -> dict -> option pystr;
  (* canvas.Canvas(path, pagesize=...) *)
  canvas_new : State -> pystr -> bool;
  (* c.drawImage(image, x, y, width=..., height=...) *)
  canvas_draw : State -> pystr -> bool;
  (* c.save() of the canvas opened on a path *)
  canvas_save : State -> pystr -> list canvas_op -> bool;
  (* os.remove(path) *)
  os_remove : State -> pystr -> bool;
  (* datetime.now().strftime("%Y%m%d_%H%M%S") *)
  timestamp : State -> pystr;
  (* os.path.expanduser('~/Downloads') *)
  home_downloads : pystr;
  (* open(settings_file, 'w') with json.dump, open(settings_file, 'r') *)
  settings_writable : State -> bool;
  settings_readable : State -> bool
}.

(** ** Computations that read and write the state and may raise *)

Inductive result (A : Type) :=
| Ok (a : A)
| Raise (e : exn).
Arguments Ok {A} a.
Arguments Raise {A} e.

Definition M (A : Type) : Type := State -> result A * State.

Definition ret {A} (a : A) : M A := fun st => (Ok a, st).

Definition raise {A} (e : exn) : M A := fun st => (Raise e, st).

Definition bind {A B} (m : M A) (k : A -> M B) : M B :=
  fun st =>
    match m st with
    | (Ok a, st') => k a st'
    | (Raise e, st') => (Raise e, st')
    end.

(** [try: m  except Exception as e: h e] *)
Definition try_except {A} (m : M A) (h : exn -> M A) : M A :=
  fun st =>
    match m st with
    | (Ok a, st') => (Ok a, st')
    | (Raise e, st') => h e st'
    end.

Definition get : M State := fun st => (Ok st, st).

(** A computation that only returns or raises. *)
Definition lift {A} (r : result A) : M A := fun st => (r, st).

Definition modify (f : State -> State) : M unit := fun st => (Ok tt, f st).

Declare Scope py_scope.
Delimit Scope py_scope with py.
Notation "x <- m ;; k" := (bind m (fun x => k))
  (at level 100, m at next level, right associativity) : py_scope.
Notation "m ;;; k" := (bind m (fun _ => k))
  (at level 100, right associativity) : py_scope.
Local Open Scope py_scope.

(** [d[key]] *)
Definition subscript {V} (d : gmap pystr V) (key : pystr) : M V :=
  match d !! key with
  | Some v => ret v
  | None => raise (KeyError key)
  end.

(** [os.path.join(a, b)] (POSIX). *)
Definition starts_with_sep (s : pystr) : bool :=
  match s with c :: _ => c =? 47 | [] => false end.

Definition ends_with_sep (s : pystr) : bool :=
  match List.rev s with c :: _ => c =? 47 | [] => false end.

Definition path_join (a b : pystr) : pystr :=
  if starts_with_sep b then b
  else if (Nat.eqb (List.length a) 0) || ends_with_sep a then a ++ b
  else a ++ 47 :: b.

(** ** The library calls *)

Section Calls.
Context {W : World}.

(** [barcode_class(text, writer=w)] *)
Definition construct (c : barcode_class) (text : pystr) (w : writer) : M barcode :=
  if accepts c text
  then ret {| code_class := c; code_text := text; code_writer := w |}
  else raise (BarcodeError c text).

(** [code.save(name, options=options)]: returns the name of the file written. *)
Definition save (code : barcode) (name : pystr) (options : dict) : M pystr :=
  fun st =>
    match writer_save st code name options with
    | Some p => (Ok p, set_files (fun fs => {[p]} ∪ fs) st)
    | None => (Raise (WriterError name), st)
    end.

(** [c = canvas.Canvas(path, pagesize=...)] *)
Definition Canvas (path : pystr) : M unit :=
  fun st =>
    if canvas_new st path
    then (Ok tt, set_canvas (Some (path, [])) st)
    else (Raise (CanvasError path), st).

(** [c.drawImage(image, x, y, width=w, height=h)] *)
Definition drawImage (image : pystr) (x y : pyval) (w h : Z) : M unit :=
  fun st =>
    match canvas st with
    | Some (path, ops) =>
        if canvas_draw st image
        then (Ok tt, set_canvas (Some (path, ops ++ [DrawImage image x y w h])) st)
        else (Raise (CanvasError image), st)
    | None => (Raise (CanvasError image), st)
    end.

(** [c.showPage()] *)
Definition showPage : M unit :=
  fun st =>
    match canvas st with
    | Some (path, ops) => (Ok tt, set_canvas (Some (path, ops ++ [ShowPage])) st)
    | None => (Raise (CanvasError []), st)
    end.

(** [c.save()] *)
Definition canvas_save_doc : M unit :=
  fun st =>
    match canvas st with
    | Some (path, ops) =>
        if canvas_save st path ops
        then (Ok tt, set_documents (fun ds => <[path := ops]> ds)
                       (set_files (fun fs => {[path]} ∪ fs) st))
        else (Raise (CanvasError path), st)
    | None => (Raise (CanvasError []), st)
    end.

(** [os.path.exists(path)] *)
Definition path_exists (path : pystr) : M bool :=
  fun st => (Ok (bool_decide (path ∈ files st)), st).

(** [os.remove(path)] *)
Definition remove (path : pystr) : M unit :=
  fun st =>
    if os_remove st path
    then (Ok tt, set_files (fun fs => fs ∖ {[path]}) st)
    else (Raise (OSError path), st).

(** [datetime.now().strftime("%Y%m%d_%H%M%S")] *)
Definition now : M pystr := fun st => (Ok (timestamp st), st).

(** [print(...)] *)
Definition print (m : message) : M unit :=
  modify (set_console (fun out => out ++ [m])).

(** The block that every generator starts with:
    [options = {'module_width': self.settings['barcode_width'], ...}]
    followed by [if not self.settings['include_text']: options['write_text'] = False].
    The generators differ in the two literals. *)
Definition make_options (settings : dict) (text_distance quiet_zone : float) : M dict :=
  module_width <- subscript settings (str "barcode_width");;
  module_height <- subscript settings (str "barcode_height");;
  font_size <- subscript settings (str "font_size");;
  let options : dict :=
    <[str "module_width" := module_width]>
      (<[str "module_height" := module_height]>
        (<[str "font_size" := font_size]>
          (<[str "text_distance" := PFloat text_distance]>
            (<[str "quiet_zone" := PFloat quiet_zone]> ∅)))) in
  include_text <- subscript settings (str "include_text");;
  ret (if truthy include_text then options
       else <[str "write_text" := PBool false]> options).

End Calls.

(** Float literals of the source. *)
Definition f5_0 : float := Eval cbv in float_of 5 0.
Definition f6_5 : float := Eval cbv in float_of 13 (-1).
Definition f16_5 : float := Eval cbv in float_of 33 (-1).
Definition f100_0 : float := Eval cbv in float_of 100 0.
Definition f2_0 : float := Eval cbv in float_of 2 0.
Definition f15_0 : float := Eval cbv in float_of 15 0.
Definition f0_2 : float := Eval cbv in float_of 3602879701896397 (-54).
Definition f1_0 : float := Eval cbv in float_of 1 0.
Definition f20_0 : float := Eval cbv in float_of 20 0.
Definition f50_0 : float := Eval cbv in float_of 50 0.

(** ** Arithmetic on floats and integers *)

Definition fsub (a b : float) : float := SFsub prec emax a b.
Definition fdiv (a b : float) : float := SFdiv prec emax a b.

(** [float(z)], as a mixed operator applies it to its [int] operand. *)
Definition float_of_int (z : Z) : result float :=
  match float_of z 0 with
  | S754_infinity _ => Raise OverflowError
  | f => Ok f
  end.

(** [int(f)]: rounds towards zero. *)
Definition int_of_float (f : float) : result Z :=
  match f with
  | S754_zero _ => Ok 0%Z
  | S754_finite s m e => Ok (cond_Zopp s (Z.shiftl (Zpos m) e))
  | S754_infinity _ => Raise OverflowError
  | S754_nan => Raise ValueError
  end.

(** [a - z] and [a / z] for a float [a] and an int [z]. *)
Definition fsub_int (a : float) (z : Z) : result float :=
  match float_of_int z with
  | Ok b => Ok (fsub a b)
  | Raise e => Raise e
  end.

Definition fdiv_int (a : float) (z : Z) : result float :=
  if (z =? 0)%Z then Raise ZeroDivisionError
  else match float_of_int z with
       | Ok b => Ok (fdiv a b)
       | Raise e => Raise e
       end.

(** [for i, x in enumerate(l)] from index [i], with the local variables
    that the body updates in [acc]. *)
Fixpoint for_enumerate {A B} (body : nat -> A -> B -> M B) (i : nat) (l : list A)
    (acc : B) : M B :=
  match l with
  | [] => ret acc
  | x :: l' => acc' <- body i x acc;; for_enumerate body (S i) l' acc'
  end.

(** ** [src/try.py]: class [BarcodeGeneratorFrame] *)

Module Frame.

(** [self.barcode_types] *)
Definition barcode_types : gmap pystr barcode_class :=
  list_to_map
    [ (str "Code128", Code128); (str "Code39", Code39); (str "EAN13", EAN13);
      (str "EAN8", EAN8); (str "UPC-A", UPCA); (str "ITF", ITF);
      (str "CODABAR", CODABAR) ].

Section Choices.
Context {W : World}.

(** [formats] in [create_single_barcode_tab]: the choices of
    [self.format_choice], which [on_generate_single] reads. *)
Definition single_formats : list pystr :=
  [str "PNG"; str "SVG"] ++ (if HAS_PDF_SUPPORT then [str "PDF"] else []).

(** [formats] in [create_batch_processing_tab]: the choices of
    [self.batch_format_choice], which [on_generate_batch] reads. *)
Definition batch_formats : list pystr :=
  [str "PNG"; str "SVG"]
  ++ (if HAS_PDF_SUPPORT then [str "PDF (Individual)"; str "PDF (Combined)"] else []).

End Choices.

Section Generators.
Context {U : Unicode} {W : World}.
Variable settings : dict.   (* self.settings *)

(** [generate_pdf_barcode(self, text, barcode_type, output_dir, filename)] *)
Definition generate_pdf_barcode (text barcode_type output_dir filename : pystr) : M bool :=
  if negb HAS_PDF_SUPPORT then raise PdfUnavailable
  else
    try_except
      (barcode_class <- subscript barcode_types barcode_type;;
       code <- construct barcode_class text ImageWriter;;
       options <- make_options settings f5_0 f6_5;;
       temp_path <- save code (str "temp_barcode") options;;
       let pdf_path := path_join output_dir (filename ++ str ".pdf") in
       (Canvas pdf_path;;;
        drawImage temp_path (PInt 72) (PInt 600) 300 100;;;
        canvas_save_doc;;;
        present <- path_exists temp_path;;
        (if present then remove temp_path else ret tt);;;
        ret true))
      (fun e => raise e).

(** [generate_barcode(self, text, barcode_type, output_format, output_dir, filename=None)] *)
Definition generate_barcode (text barcode_type output_format output_dir : pystr)
    (filename : option pystr) : M bool :=
  try_except
    (barcode_class <- subscript barcode_types barcode_type;;
     filename <- match filename with
                 | None =>
                     let safe_text := sanitize text in
                     stamp <- now;;
                     ret (str "barcode_" ++ safe_text ++ str "_" ++ stamp)
                 | Some f => ret f
                 end;;
     options <- make_options settings f100_0 f16_5;;
     if bool_decide (output_format = str "SVG") then
       code <- construct barcode_class text SVGWriter;;
       let output_path := path_join output_dir (filename ++ str ".svg") in
       (save code output_path options;;; ret true)
     else if bool_decide (output_format = str "PDF") && HAS_PDF_SUPPORT then
       generate_pdf_barcode text barcode_type output_dir filename
     else
       code <- construct barcode_class text ImageWriter;;
       let output_path := path_join output_dir (filename ++ str ".png") in
       (save code output_path options;;; ret true))
    (fun e => raise e).

(** The message box that a handler ends with. *)
Inductive dialog :=
| PleaseEnterText                   (* "Please enter text for the barcode." *)
| BarcodeSaved (output_dir : pystr) (* "Barcode saved to {output_dir}" *)
| ErrorGenerating (e : exn).        (* "Error generating barcode: {e}" *)

(** [on_generate_single(self, event)], on what the controls hold. *)
Definition on_generate_single (entered barcode_type output_format output_dir : pystr)
    : M (option dialog) :=
  let text := strip entered in
  match text with
  | [] => ret (Some PleaseEnterText)
  | _ =>
      try_except
        (success <- generate_barcode text barcode_type output_format output_dir None;;
         ret (if success : bool then Some (BarcodeSaved output_dir) else None))
        (fun e => ret (Some (ErrorGenerating e)))
  end.

(** *** The combined document *)

Definition margin : Z := 72.
Definition barcode_height : Z := 80.
Definition barcode_width : Z := 250.
Definition spacing : Z := 20.

Record layout := {
  page_height : float;
  barcodes_per_row : Z;
  barcodes_per_column : Z;
  barcodes_per_page : Z
}.

(** The lines under [# Calculate layout]. *)
Definition calculate_layout : M layout :=
  let '(page_width, page_height) := A4 in
  usable_width <- lift (fsub_int page_width (2 * margin));;
  usable_height <- lift (fsub_int page_height (2 * margin));;
  across <- lift (fdiv_int usable_width (barcode_width + spacing));;
  across <- lift (int_of_float across);;
  let barcodes_per_row := Z.max 1 across in
  down <- lift (fdiv_int usable_height (barcode_height + spacing));;
  down <- lift (int_of_float down);;
  let barcodes_per_column := Z.max 1 down in
  ret {| page_height := page_height;
         barcodes_per_row := barcodes_per_row;
         barcodes_per_column := barcodes_per_column;
         barcodes_per_page := (barcodes_per_row * barcodes_per_column)%Z |}.

(** The lines under [# Calculate position]. *)
Definition calculate_position (lay : layout) (i : nat) : M (pyval * pyval) :=
  let page_position := (Z.of_nat i mod barcodes_per_page lay)%Z in
  let row := (page_position / barcodes_per_row lay)%Z in
  let col := (page_position mod barcodes_per_row lay)%Z in
  let x := (margin + col * (barcode_width + spacing))%Z in
  above <- lift (fsub_int (page_height lay) margin);;
  y <- lift (fsub_int above ((row + 1) * (barcode_height + spacing)));;
  ret (PInt x, PFloat y).

(** The body of the loop of [generate_combined_pdf], with its handler. *)
Definition add_item (lay : layout) (options : dict) (barcode_class : barcode_class)
    (total : nat) (i : nat) (text : pystr) (_ : unit) : M unit :=
  try_except
    (code <- construct barcode_class text ImageWriter;;
     temp_path <- save code (str "temp_barcode_" ++ fmt_d i) options;;
     xy <- calculate_position lay i;;
     drawImage temp_path (fst xy) (snd xy) barcode_width barcode_height;;;
     present <- path_exists temp_path;;
     (if present then remove temp_path else ret tt);;;
     (if ((Z.of_nat i + 1) mod barcodes_per_page lay =? 0)%Z
         && (Z.of_nat i <? Z.of_nat total - 1)%Z
      then showPage else ret tt);;;
     modify (set_gauge (i + 1)))
    (fun e => print (ItemError text e)).

(** [generate_combined_pdf(self, data, barcode_type, output_dir, prefix)] *)
Definition generate_combined_pdf (data : list pystr)
    (barcode_type output_dir prefix : pystr) : M bool :=
  if negb HAS_PDF_SUPPORT then ret false
  else
    try_except
      (let pdf_path := path_join output_dir (prefix ++ str "combined_barcodes.pdf") in
       Canvas pdf_path;;;
       barcode_class <- subscript barcode_types barcode_type;;
       options <- make_options settings f5_0 f6_5;;
       lay <- calculate_layout;;
       for_enumerate (add_item lay options barcode_class (List.length data)) 0 data tt;;;
       canvas_save_doc;;;
       ret true)
      (fun e => print (CombinedError e);;; ret false).

(** *** The batch run *)

(** An entry of [failed_items]: the text alone, or the text with the error. *)
Inductive failed_item :=
| Failed (text : pystr)
| FailedWith (text : pystr) (e : exn).

(** The two local variables that the run reports. *)
Record BatchResult := { successful : nat; failed_items : list failed_item }.

(** [f"{prefix}{i+1:04d}_{text[:20]}"], then the sanitising line. *)
Definition batch_filename (prefix : pystr) (i : nat) (text : pystr) : pystr :=
  sanitize (prefix ++ fmt_04d (i + 1) ++ str "_" ++ slice_to 20 text).

(** The body of the loop under [# Generate individual files]. *)
Definition generate_item (barcode_type output_format output_dir prefix : pystr)
    (i : nat) (text : pystr) (acc : BatchResult) : M BatchResult :=
  acc' <- try_except
            (let filename := batch_filename prefix i text in
             let format_to_use :=
               if bool_decide (output_format = str "PDF (Individual)")
               then str "PDF" else output_format in
             success <- generate_barcode text barcode_type format_to_use output_dir
                          (Some filename);;
             ret (if success : bool
                  then {| successful := successful acc + 1;
                          failed_items := failed_items acc |}
                  else {| successful := successful acc;
                          failed_items := failed_items acc ++ [Failed text] |}))
            (fun e =>
               ret {| successful := successful acc;
                      failed_items := failed_items acc ++ [FailedWith text e] |});;
  modify (set_gauge (i + 1));;;
  ret acc'.

(** [on_generate_batch], from the point where [data] has been read and the
    batch settings taken from the controls.  [None] is a run that ends in an
    error dialog and reports nothing. *)
Definition on_generate_batch (data : list pystr)
    (barcode_type output_format output_dir prefix : pystr) : M (option BatchResult) :=
  try_except
    (match data with
     | [] => ret None
     | _ =>
         modify (set_gauge 0);;;
         let start := {| successful := 0; failed_items := [] |} in
         if bool_decide (output_format = str "PDF (Combined)") && HAS_PDF_SUPPORT then
           success <- generate_combined_pdf data barcode_type output_dir prefix;;
           ret (Some (if success : bool
                      then {| successful := List.length data; failed_items := [] |}
                      else start))
         else
           r <- for_enumerate
                  (generate_item barcode_type output_format output_dir prefix)
                  0 data start;;
           ret (Some r)
     end)
    (fun e => ret None).

End Generators.

Section Settings.
Context {W : World}.

(** *** Settings *)

(** The dictionary that [__init__] assigns to [self.settings]. *)
Definition default_settings : dict :=
  <[str "default_barcode_type" := PStr (str "Code128")]>
    (<[str "default_output_format" := PStr (str "PNG")]>
      (<[str "default_output_dir" := PStr home_downloads]>
        (<[str "barcode_width" := PFloat f2_0]>
          (<[str "barcode_height" := PFloat f15_0]>
            (<[str "include_text" := PBool true]>
              (<[str "text_distance" := PInt 5]>
                (<[str "font_size" := PInt 10]> ∅))))))).

(** [self.settings.update(pairs)] up to the error that ends it: the pairs
    are stored one after the other, a later one over an earlier one. *)
Definition update_pairs (settings : dict) (pairs : list (pystr * pyval)) : dict :=
  List.fold_left (fun d kv => <[fst kv := snd kv]> d) pairs settings.

(** [load_settings(self)]: returns the new value of [self.settings].
    [json.load] gives back the object that [json.dump] wrote.  The handler
    [except: pass] swallows every error, and what [update] has stored before
    the error stays in [self.settings]. *)
Definition load_settings (settings : dict) : M dict :=
  fun st =>
    match settings_file st with
    | Some content =>
        if settings_readable st then
          match content with
          | JsonObject saved_settings => (Ok (saved_settings ∪ settings), st)
          | JsonSequence applied => (Ok (update_pairs settings applied), st)
          | Unreadable => (Ok settings, st)
          end
        else (Ok settings, st)
    | None => (Ok settings, st)
    end.

(** [save_settings(self)] *)
Definition save_settings (settings : dict) : M unit :=
  fun st =>
    if settings_writable st
    then (Ok tt, set_settings_file (Some (JsonObject settings)) st)
    else (Ok tt, st).

(** The settings part of [__init__]: the defaults, then [load_settings]. *)
Definition init_settings : M dict := load_settings default_settings.

End Settings.

(** *** The settings tab and the exit *)

(** What the controls of the settings tab hold. *)
Record settings_controls := {
  width_spin : float;             (* wx.SpinCtrlDouble *)
  height_spin : float;            (* wx.SpinCtrlDouble *)
  include_text_cb : bool;         (* wx.CheckBox *)
  text_distance_spin : Z;         (* wx.SpinCtrl *)
  font_spin : Z;                  (* wx.SpinCtrl *)
  default_type_choice : pystr;    (* GetStringSelection() *)
  default_format_choice : pystr   (* GetStringSelection() *)
}.

Section SettingsTab.
Context {W : World}.

(** [on_save_settings(self, event)]: returns the new value of [self.settings]. *)
Definition on_save_settings (settings : dict) (c : settings_controls) : M dict :=
  let settings := <[str "barcode_width" := PFloat (width_spin c)]> settings in
  let settings := <[str "barcode_height" := PFloat (height_spin c)]> settings in
  let settings := <[str "include_text" := PBool (include_text_cb c)]> settings in
  let settings := <[str "text_distance" := PInt (text_distance_spin c)]> settings in
  let settings := <[str "font_size" := PInt (font_spin c)]> settings in
  let settings := <[str "default_barcode_type" := PStr (default_type_choice c)]> settings in
  let settings := <[str "default_output_format" := PStr (default_format_choice c)]> settings in
  save_settings settings;;; ret settings.

(** The dictionary that [on_reset_settings] assigns to [self.settings]. *)
Definition on_reset_settings : dict :=
  <[str "default_barcode_type" := PStr (str "Code128")]>
    (<[str "default_output_format" := PStr (str "PNG")]>
      (<[str "default_output_dir" := PStr home_downloads]>
        (<[str "barcode_width" := PFloat f1_0]>
          (<[str "barcode_height" := PFloat f50_0]>
            (<[str "include_text" := PBool true]>
              (<[str "font_size" := PInt 24]> ∅)))))).

(** [on_exit(self, event)] *)
Definition on_exit (settings : dict) : M unit := save_settings settings.

End SettingsTab.

(** *** The input of a batch *)

Section Input.
Context {U : Unicode} {W : World}.
Variable settings : dict.   (* self.settings *)

(** Truth value of a string. *)
Definition nonempty (s : pystr) : bool :=
  match s with [] => false | _ => true end.

(** [[line.strip() for line in f.readlines() if line.strip()]] *)
Definition read_text_lines (lines : list pystr) : list pystr :=
  List.map strip (List.filter (fun line => nonempty (strip line)) lines).

(** The loop over the rows that follow the header:
    [if len(row) > column_index and row[column_index].strip():]
    [data.append(row[column_index].strip())]. *)
Definition read_csv_column (column_index : nat) (rows : list (list pystr)) : list pystr :=
  List.flat_map
    (fun row =>
       match row !! column_index with
       | Some cell => if nonempty (strip cell) then [strip cell] else []
       | None => []
       end)
    rows.

(** What was read from the chosen file: the lines of a text file, or the
    rows that [csv.reader] gives. *)
Inductive batch_source :=
| TextFile (lines : list pystr)
| CsvFile (rows : list (list pystr)).

(** [on_generate_batch(self, event)] from its first line, on the path of
    the file picker, the content of the file, and the selection of the
    column ([None] for -1).  A file that cannot be opened is not
    represented. *)
Definition on_generate_batch_event (file_path : pystr) (source : batch_source)
    (column_index : option nat)
    (barcode_type output_format output_dir prefix : pystr) : M (option BatchResult) :=
  match file_path with
  | [] => ret None
  | _ =>
      match source with
      | TextFile lines =>
          on_generate_batch settings (read_text_lines lines)
            barcode_type output_format output_dir prefix
      | CsvFile rows =>
          match column_index with
          | None => ret None
          | Some column_index =>
              match rows with
              | [] => ret None            (* next(reader) raises; the handler shows it *)
              | headers :: rows =>
                  on_generate_batch settings (read_csv_column column_index rows)
                    barcode_type output_format output_dir prefix
              end
          end
      end
  end.

End Input.

(** *** The preview *)

(** The message box that [on_preview] may end with. *)
Inductive preview_dialog :=
| PreviewNeedsText                 (* "Please enter text for the barcode." *)
| ErrorPreview (e : exn).          (* "Error generating preview: {e}" *)

Section Preview.
Context {U : Unicode} {W : World}.
Variable settings : dict.   (* self.settings *)

(** [show_preview(self, image_path)]: its whole body is a [try] block
    whose handler shows a message box, and it works on the preview panel
    only, which is not part of the state. *)
Definition show_preview (image_path : pystr) : M unit := ret tt.

(** [on_preview(self, event)], on what the controls hold. *)
Definition on_preview (entered barcode_type : pystr) : M (option preview_dialog) :=
  let text := strip entered in
  match text with
  | [] => ret (Some PreviewNeedsText)
  | _ =>
      try_except
        (barcode_class <- subscript barcode_types barcode_type;;
         code <- construct barcode_class text ImageWriter;;
         let temp_path := str "temp_preview" in
         options <- make_options settings f20_0 f6_5;;
         full_path <- save code temp_path options;;
         show_preview full_path;;;
         present <- path_exists full_path;;
         (if present then remove full_path else ret tt);;;
         ret None)
        (fun e => ret (Some (ErrorPreview e)))
  end.

End Preview.
End Frame.

(** ** [src/logic/barcode_generator.py]: class [BarcodeGenerator] *)

Module Logic.

(** [self.barcode_types] *)
Definition barcode_types : gmap pystr barcode_class :=
  list_to_map
    [ (str "EAN13", EAN13); (str "EAN8", EAN8); (str "Code128", Code128);
      (str "Code39", Code39); (str "UPC", UPCA); (str "ISBN13", ISBN13) ].

(** The dictionary used when the constructor gets no settings. *)
Definition default_settings : dict :=
  <[str "barcode_width" := PFloat f0_2]>
    (<[str "barcode_height" := PFloat f15_0]>
      (<[str "text_distance" := PFloat f5_0]>
        (<[str "font_size" := PInt 10]>
          (<[str "include_text" := PBool true]> ∅)))).

(** [settings or {...}] *)
Definition init_settings (settings : option dict) : dict :=
  match settings with
  | Some d => if bool_decide (d = ∅) then default_settings else d
  | None => default_settings
  end.

Section Generators.
Context {U : Unicode} {W : World}.
Variable settings : dict.   (* self.settings *)

(** [generate_pdf_barcode(self, barcode_class, text, output_dir, filename, options)] *)
Definition generate_pdf_barcode (barcode_class : barcode_class)
    (text output_dir filename : pystr) (options : dict) : M pystr :=
  try_except
    (code <- construct barcode_class text ImageWriter;;
     temp_path <- save code (str "temp_barcode") options;;
     let pdf_path := path_join output_dir (filename ++ str ".pdf") in
     (Canvas pdf_path;;;
      drawImage temp_path (PInt 72) (PInt 600) 300 100;;;
      canvas_save_doc;;;
      present <- path_exists temp_path;;
      (if present then remove temp_path else ret tt);;;
      ret pdf_path))
    (fun e => raise e).

(** [generate_barcode(self, text, barcode_type, output_format, output_dir, filename=None)] *)
Definition generate_barcode (text barcode_type output_format output_dir : pystr)
    (filename : option pystr) : M pystr :=
  try_except
    (barcode_class <- subscript barcode_types barcode_type;;
     filename <- match filename with
                 | None =>
                     let safe_text := sanitize text in
                     stamp <- now;;
                     ret (str "barcode_" ++ safe_text ++ str "_" ++ stamp)
                 | Some f => ret f
                 end;;
     options <- make_options settings f5_0 f6_5;;
     if bool_decide (upper output_format = str "SVG") then
       code <- construct barcode_class text SVGWriter;;
       let output_path := path_join output_dir (filename ++ str ".svg") in
       (save code output_path options;;; ret output_path)
     else if bool_decide (upper output_format = str "PDF") then
       if negb HAS_PDF_SUPPORT then raise PdfUnavailable
       else generate_pdf_barcode barcode_class text output_dir filename options
     else
       code <- construct barcode_class text ImageWriter;;
       let output_path := path_join output_dir (filename ++ str ".png") in
       (save code output_path options;;; ret output_path))
    (fun e => raise e).

End Generators.
End Logic.

(** ** Tables and worlds to run the model in *)

(** An interpreter whose tables know nothing outside ASCII. *)
Definition ascii_only : Unicode :=
  {| uni_alnum := fun _ => false; uni_space := fun _ => false; uni_upper := fun c => [c] |}.

(** The page of [reportlab.lib.pagesizes.A4]: 210 mm by 297 mm in points. *)
Definition a4_page : float * float :=
  Eval cbv in (float_of 5236099468337991 (-43), float_of 7405340676649445 (-43)).

(** Every collaborator succeeds; a writer creates the file under the name
    it is given. *)
Definition obliging : World :=
  {| HAS_PDF_SUPPORT := true;
     A4 := a4_page;
     accepts := fun _ _ => true;
     writer_save := fun _ _ name _ => Some name;
     canvas_new := fun _ _ => true;
     canvas_draw := fun _ _ => true;
     canvas_save := fun _ _ _ => true;
     os_remove := fun _ _ => true;
     timestamp := fun _ => str "20250101_120000";
     home_downloads := str "/home/user/Downloads";
     settings_writable := fun _ => true;
     settings_readable := fun _ => true |}.

(** The document library is not installed; all else as in [obliging]. *)
Definition without_pdf : World :=
  {| HAS_PDF_SUPPORT := false;
     A4 := a4_page;
     accepts := fun _ _ => true;
     writer_save := fun _ _ name _ => Some name;
     canvas_new := fun _ _ => true;
     canvas_draw := fun _ _ => true;
     canvas_save := fun _ _ _ => true;
     os_remove := fun _ _ => true;
     timestamp := fun _ => str "20250101_120000";
     home_downloads := str "/home/user/Downloads";
     settings_writable := fun _ => true;
     settings_readable := fun _ => true |}.

(** Files cannot be deleted; all else as in [obliging]. *)
Definition undeletable : World :=
  {| HAS_PDF_SUPPORT := true;
     A4 := a4_page;
     accepts := fun _ _ => true;
     writer_save := fun _ _ name _ => Some name;
     canvas_new := fun _ _ => true;
     canvas_draw := fun _ _ => true;
     canvas_save := fun _ _ _ => true;
     os_remove := fun _ _ => false;
     timestamp := fun _ => str "20250101_120000";
     home_downloads := str "/home/user/Downloads";
     settings_writable := fun _ => true;
     settings_readable := fun _ => true |}.

(** Documents cannot be saved; all else as in [obliging]. *)
Definition unsavable : World :=
  {| HAS_PDF_SUPPORT := true;
     A4 := a4_page;
     accepts := fun _ _ => true;
     writer_save := fun _ _ name _ => Some name;
     canvas_new := fun _ _ => true;
     canvas_draw := fun _ _ => true;
     canvas_save := fun _ _ _ => false;
     os_remove := fun _ _ => true;
     timestamp := fun _ => str "20250101_120000";
     home_downloads := str "/home/user/Downloads";
     settings_writable := fun _ => true;
     settings_readable := fun _ => true |}.

(** The barcode classes reject every text but ["A1"] and ["C3"]; all else
    as in [obliging]. *)
Definition choosy : World :=
  {| HAS_PDF_SUPPORT := true;
     A4 := a4_page;
     accepts := fun _ text =>
       bool_decide (text = str "A1") || bool_decide (text = str "C3");
     writer_save := fun _ _ name _ => Some name;
     canvas_new := fun _ _ => true;
     canvas_draw := fun _ _ => true;
     canvas_save := fun _ _ _ => true;
     os_remove := fun _ _ => true;
     timestamp := fun _ => str "20250101_120000";
     home_downloads := str "/home/user/Downloads";
     settings_writable := fun _ => true;
     settings_readable := fun _ => true |}.

(** The extension that a writer of python-barcode appends to the name it
    is handed: [ImageWriter] saves [name + ".png"], [SVGWriter] saves
    [name + ".svg"], and [save] returns that name. *)
Definition writer_extension (w : writer) : pystr :=
  match w with
  | ImageWriter => str ".png"
  | SVGWriter => str ".svg"
  end.

(** Every collaborator succeeds; a writer names its file as python-barcode
    does. *)
Definition appending : World :=
  {| HAS_PDF_SUPPORT := true;
     A4 := a4_page;
     accepts := fun _ _ => true;
     writer_save := fun _ code name _ => Some (name ++ writer_extension (code_writer code));
     canvas_new := fun _ _ => true;
     canvas_draw := fun _ _ => true;
     canvas_save := fun _ _ _ => true;
     os_remove := fun _ _ => true;
     timestamp := fun _ => str "20250101_120000";
     home_downloads := str "/home/user/Downloads";
     settings_writable := fun _ => true;
     settings_readable := fun _ => true |}.

(** The document library is not installed; all else as in [appending]. *)
Definition appending_without_pdf : World :=
  {| HAS_PDF_SUPPORT := false;
     A4 := a4_page;
     accepts := fun _ _ => true;
     writer_save := fun _ code name _ => Some (name ++ writer_extension (code_writer code));
     canvas_new := fun _ _ => true;
     canvas_draw := fun _ _ => true;
     canvas_save := fun _ _ _ => true;
     os_remove := fun _ _ => true;
     timestamp := fun _ => str "20250101_120000";
     home_downloads := str "/home/user/Downloads";
     settings_writable := fun _ => true;
     settings_readable := fun _ => true |}.

(** The settings of a first start in [obliging]. *)
Definition first_settings : dict := Frame.default_settings (W := obliging).

(** The fields of the settings that a generator reads. *)
Definition generator_fields : list pystr :=
  [str "barcode_width"; str "barcode_height"; str "font_size"; str "include_text"].

Definition complete (settings : dict) : Prop :=
  Forall (fun key => is_Some (settings !! key)) generator_fields.

(** The three lines of the scenario. *)
Definition three_items : list pystr := [str "A1"; str "B2"; str "C3"].

(** ** The layout as the specification words it *)

(** Following the specification: [floor] of a float. *)
Definition floor_of_float (f : float) : Z :=
  match f with
  | S754_finite s m e => Z.shiftl (cond_Zopp s (Zpos m)) e
  | _ => 0
  end.

(** Following the specification: box 250 by 80, spacing 20, margin 72;
    [items_per_row = max(1, floor(usable_width / (box_width + spacing)))],
    likewise down the page, and their product. *)
Definition spec_items_per_row (page_width : float) : Z :=
  Z.max 1 (floor_of_float
             (fdiv (fsub page_width (float_of (2 * 72) 0)) (float_of (250 + 20) 0))).

Definition spec_items_per_column (page_top : float) : Z :=
  Z.max 1 (floor_of_float
             (fdiv (fsub page_top (float_of (2 * 72) 0)) (float_of (80 + 20) 0))).

Definition spec_items_per_page (page_width page_top : float) : Z :=
  (spec_items_per_row page_width * spec_items_per_column page_top)%Z.

(** Following the specification: the place of the item of 0-based index [i]. *)
Definition spec_page_position (page_width page_top : float) (i : nat) : Z :=
  (Z.of_nat i mod spec_items_per_page page_width page_top)%Z.

Definition spec_row (page_width page_top : float) (i : nat) : Z :=
  (spec_page_position page_width page_top i / spec_items_per_row page_width)%Z.

Definition spec_col (page_width page_top : float) (i : nat) : Z :=
  (spec_page_position page_width page_top i mod spec_items_per_row page_width)%Z.

Definition spec_x (page_width page_top : float) (i : nat) : Z :=
  (72 + spec_col page_width page_top i * (250 + 20))%Z.

Definition spec_y (page_width page_top : float) (i : nat) : float :=
  fsub (fsub page_top (float_of 72 0))
       (float_of ((spec_row page_width page_top i + 1) * (80 + 20)) 0).

(** *** The document as the specification describes it *)

Section Assembled.
Context {W : World}.
Variables (page_width page_top : float) (cls : barcode_class) (total : nat).

(** The barcode of an item, which the assembler hands to the image writer. *)
Definition item_code (text : pystr) : barcode :=
  {| code_class := cls; code_text := text; code_writer := ImageWriter |}.

(** The image of item [i] in a box of 250 by 80 where the specification
    places the item. *)
Definition placed (i : nat) (image : pystr) : canvas_op :=
  DrawImage image (PInt (spec_x page_width page_top i))
    (PFloat (spec_y page_width page_top i)) 250 80.

(** Item [i] has been encoded, written to [image], and drawn: the barcode
    class accepted its text, the writer made [image] for it, and the canvas
    took the image. *)
Definition item_drawn (i : nat) (text image : pystr) : Prop :=
  accepts cls text = true
  /\ (exists s options,
        writer_save s (item_code text) (str "temp_barcode_" ++ fmt_d i) options = Some image)
  /\ (exists s, canvas_draw s image = true).

(** Item [i] was skipped with the error [e]: the barcode class rejected its
    text; or the writer failed; or the height of its row is an integer too
    large for a float; or the canvas refused its image. *)
Definition item_skipped (i : nat) (text : pystr) (e : exn) : Prop :=
  (accepts cls text = false /\ e = BarcodeError cls text)
  \/ (accepts cls text = true
      /\ ((e = WriterError (str "temp_barcode_" ++ fmt_d i)
           /\ exists s options,
                writer_save s (item_code text) (str "temp_barcode_" ++ fmt_d i) options = None)
          \/ float_of_int ((spec_row page_width page_top i + 1) * (80 + 20)) = Raise e
          \/ (exists image,
                e = CanvasError image
                /\ (exists s options,
                      writer_save s (item_code text) (str "temp_barcode_" ++ fmt_d i) options
                      = Some image)
                /\ exists s, canvas_draw s image = false))).

(** Following the specification: a new page is started exactly when
    [(i+1) mod items_per_page == 0] and more items remain. *)
Definition page_break (i : nat) : list canvas_op :=
  if ((Z.of_nat i + 1) mod spec_items_per_page page_width page_top =? 0)%Z
     && (Z.of_nat i <? Z.of_nat total - 1)%Z
  then [ShowPage] else [].

(** What item [i] leaves on the canvas and on the console: its image where
    the specification places it, and the page break; or its image and the
    report that the image file could not be deleted; or, when one of the
    steps up to the drawing failed, nothing but the report of that error. *)
Definition item_outcome (i : nat) (text : pystr) (chunk : list canvas_op)
    (msgs : list message) : Prop :=
  (exists image,
     item_drawn i text image /\ chunk = placed i image :: page_break i /\ msgs = [])
  \/ (exists image,
        item_drawn i text image /\ (exists s, os_remove s image = false)
        /\ chunk = [placed i image] /\ msgs = [ItemError text (OSError image)])
  \/ (exists e, item_skipped i text e /\ chunk = [] /\ msgs = [ItemError text e]).

(** The canvas and the console after the items from index [i] on. *)
Fixpoint assembled (i : nat) (items : list pystr) (ops : list canvas_op)
    (msgs : list message) : Prop :=
  match items with
  | [] => ops = [] /\ msgs = []
  | text :: items' =>
      exists chunk m ops' msgs',
        ops = chunk ++ ops' /\ msgs = m ++ msgs'
        /\ item_outcome i text chunk m
        /\ assembled (S i) items' ops' msgs'
  end.

End Assembled.

(** *** The run over individual files, item by item *)

Section IndividualRun.
Context {U : Unicode} {W : World}.
Variables (settings : dict) (barcode_type format_to_use output_dir prefix : pystr).

(** From item [i] on: the generator is called on each item in turn, with
    the file name derived for the item, in the state that the items before
    it have left; the gauge is set after each call; the failures are the
    items on which the call raised, each with the error of its call. *)
Inductive individual_run :
    nat -> list pystr -> State -> list Frame.failed_item -> State -> Prop :=
| run_end i st : individual_run i [] st [] st
| run_generated i text items st b s fs st' :
    Frame.generate_barcode settings text barcode_type format_to_use output_dir
      (Some (Frame.batch_filename prefix i text)) st = (Ok b, s) ->
    individual_run (S i) items (set_gauge (i + 1) s) fs st' ->
    individual_run i (text :: items) st fs st'
| run_raised i text items st e s fs st' :
    Frame.generate_barcode settings text barcode_type format_to_use output_dir
      (Some (Frame.batch_filename prefix i text)) st = (Raise e, s) ->
    individual_run (S i) items (set_gauge (i + 1) s) fs st' ->
    individual_run i (text :: items) st (Frame.FailedWith text e :: fs) st'.

End IndividualRun.

(** Eight lines, for a document of two pages. *)
Definition eight_items : list pystr :=
  [str "A1"; str "B2"; str "C3"; str "D4"; str "E5"; str "F6"; str "G7"; str "H8"].

(** The heights of the six rows of an A4 page, as Python computes them:
    669.8897637795277, 569.8897637795277, ..., 169.8897637795277. *)
Definition a4_row_y : list float :=
  [ S754_finite false 5892412676829669 (-43);
    S754_finite false 5012803374608869 (-43);
    S754_finite false 8266388144776138 (-44);
    S754_finite false 6507169540334538 (-44);
    S754_finite false 4747950935892938 (-44);
    S754_finite false 5977464662902676 (-45) ].

(** The operation that places the image [name] at [x = 72] in row [row] of
    an A4 page. *)
Definition a4_draw (name : string) (row : nat) : canvas_op :=
  DrawImage (str name) (PInt 72) (PFloat (List.nth row a4_row_y S754_nan)) 250 80.

(** The value of a computation that returned, a default layout otherwise. *)
Definition fst_ok (r : result Frame.layout * State) : Frame.layout :=
  match fst r with
  | Ok lay => lay
  | Raise _ =>
      {| Frame.page_height := S754_nan; Frame.barcodes_per_row := 1;
         Frame.barcodes_per_column := 1; Frame.barcodes_per_page := 1 |}
  end.

(** The text of an entry of [failed_items]. *)
Definition failed_text (f : Frame.failed_item) : pystr :=
  match f with
  | Frame.Failed text => text
  | Frame.FailedWith text _ => text
  end.

(** The rows of the CSV scenario: header [name,code], then [a,1], [b,], [c,2]. *)
Definition csv_sample : list (list pystr) :=
  [ [str "name"; str "code"]; [str "a"; str "1"]; [str "b"; str ""]; [str "c"; str "2"] ].

(** Settings that hold the font size only. *)
Definition font_only : dict := {[ str "font_size" := PInt 12 ]}.

(** Values entered in the settings tab. *)
Definition entered_controls : Frame.settings_controls :=
  {| Frame.width_spin := f1_0; Frame.height_spin := f20_0;
     Frame.include_text_cb := false; Frame.text_distance_spin := 8;
     Frame.font_spin := 14; Frame.default_type_choice := str "EAN13";
     Frame.default_format_choice := str "SVG" |}.

(** The fields that the settings tab writes, with the value of each. *)
Definition control_fields (c : Frame.settings_controls) : list (pystr * pyval) :=
  [ (str "barcode_width", PFloat (Frame.width_spin c));
    (str "barcode_height", PFloat (Frame.height_spin c));
    (str "include_text", PBool (Frame.include_text_cb c));
    (str "text_distance", PInt (Frame.text_distance_spin c));
    (str "font_size", PInt (Frame.font_spin c));
    (str "default_barcode_type", PStr (Frame.default_type_choice c));
    (str "default_output_format", PStr (Frame.default_format_choice c)) ].

(** The layout of an A4 page: one item per row, six rows. *)
Definition a4_layout : Frame.layout :=
  {| Frame.page_height := snd a4_page; Frame.barcodes_per_row := 1;
     Frame.barcodes_per_column := 6; Frame.barcodes_per_page := 6 |}.

(** The name that the assembler gives to the temporary image of item [i]. *)
Definition temp_name (i : nat) : pystr := str "temp_barcode_" ++ fmt_d i.

(** What item [i] of [total] adds to a document of A4 pages when nothing
    fails: its image, under the name [written (temp_name i)] that the writer
    gave it, in row [i mod 6], and a page break after every sixth item but
    the last. *)
Definition a4_item_ops (written : pystr -> pystr) (total i : nat) : list canvas_op :=
  DrawImage (written (temp_name i)) (PInt 72)
    (PFloat (List.nth (Z.to_nat (Z.of_nat i mod 6)) a4_row_y S754_nan)) 250 80
  :: (if ((Z.of_nat i + 1) mod 6 =? 0)%Z && (Z.of_nat i <? Z.of_nat total - 1)%Z
      then [ShowPage] else []).

Definition a4_document (written : pystr -> pystr) (total : nat) : list canvas_op :=
  List.flat_map (a4_item_ops written total) (List.seq 0 total).

(** The name of the PNG file of python-barcode for the name it is handed. *)
Definition png_name (name : pystr) : pystr := name ++ str ".png".

(** A settings file that holds the JSON array [[["font_size", 99], 5]]:
    [update] stores the first element and raises on the second. *)
Definition array_file : file_data := JsonSequence [(str "font_size", PInt 99)].

(** A machine with nothing on it. *)
Definition blank : State :=
  {| files := ∅; documents := ∅; canvas := None; settings_file := None;
     console := []; gauge := 0 |}.

(** Settings as the settings tab leaves them after a change of three fields. *)
Definition changed_settings : dict :=
  <[str "barcode_width" := PFloat f0_2]>
    (<[str "include_text" := PBool false]>
      (<[str "font_size" := PInt 24]> (Frame.default_settings (W := obliging)))).

(** ** Reading digits back *)

Definition is_digit (c : N) : bool := between 48 57 c.

(** Reading a run of digits back. *)
Fixpoint chars_uint (s : pystr) : Decimal.uint :=
  match s with
  | 48 :: s' => D0 (chars_uint s')
  | 49 :: s' => D1 (chars_uint s')
  | 50 :: s' => D2 (chars_uint s')
  | 51 :: s' => D3 (chars_uint s')
  | 52 :: s' => D4 (chars_uint s')
  | 53 :: s' => D5 (chars_uint s')
  | 54 :: s' => D6 (chars_uint s')
  | 55 :: s' => D7 (chars_uint s')
  | 56 :: s' => D8 (chars_uint s')
  | 57 :: s' => D9 (chars_uint s')
  | _ => Nil
  end.

(** * Properties *)

(** ** Strings *)

Section PyStrFacts.
Context {U : Unicode}.

Lemma rstrip_cons_nonempty c s :
  rstrip s <> [] -> rstrip (c :: s) = c :: rstrip s.
Proof. simpl. destruct (rstrip s); congruence. Qed.

Lemma rstrip_app_nonempty s1 s2 :
  rstrip s2 <> [] -> rstrip (s1 ++ s2) = s1 ++ rstrip s2.
Proof.
  intros Hne. induction s1 as [|c s1 IH]; [reflexivity|].
  rewrite <- !app_comm_cons, rstrip_cons_nonempty, IH; [reflexivity|].
  rewrite IH. destruct s1; simpl; [assumption | discriminate].
Qed.

Lemma rstrip_keeps_nonspace c s :
  isspace c = false -> rstrip (c :: s) = c :: rstrip s.
Proof. intros Hc. simpl. rewrite Hc. destruct (rstrip s); reflexivity. Qed.

(** What [rstrip] removes is a run of whitespace at the end, and what it
    leaves does not end in whitespace. *)
Lemma rstrip_spec s :
  exists trailing,
    s = rstrip s ++ trailing
    /\ Forall (fun c => isspace c = true) trailing
    /\ (rstrip s = [] \/ exists r c, rstrip s = r ++ [c] /\ isspace c = false).
Proof.
  induction s as [|c s (t & Heq & Hsp & Hlast)].
  - exists []. repeat split; [constructor | left; reflexivity].
  - simpl. destruct (rstrip s) as [|r rs] eqn:Hr.
    + simpl in Heq. subst t. destruct (isspace c) eqn:Hc.
      * exists (c :: s). repeat split; [constructor; assumption | left; reflexivity].
      * exists s. repeat split; [assumption|].
        right. exists [], c. split; [reflexivity | assumption].
    + exists t. repeat split.
      * rewrite <- app_comm_cons. f_equal. assumption.
      * assumption.
      * right. destruct Hlast as [H | (r' & c' & H & Hc')]; [discriminate|].
        exists (c :: r'), c'. rewrite H. split; [reflexivity | assumption].
Qed.

End PyStrFacts.

Section Samples.
#[local] Existing Instance ascii_only.

Example fmt_04d_7 : fmt_04d 7 = str "0007".
Proof. reflexivity. Qed.

Example fmt_04d_12345 : fmt_04d (12 * 1000 + 345) = str "12345".
Proof. vm_compute. reflexivity. Qed.

Example sanitize_sample : sanitize (str "a/b c_d-e!  ") = str "ab c_d-e".
Proof. reflexivity. Qed.
End Samples.

(** ** Sanitising a file name *)

(** C6, as stated, fails: the sanitising line ends in [.rstrip()], so a
    space at the end of the kept characters is removed although space is one
    of the characters to keep.  On ["A "] the kept characters are ["A "] and
    the result is ["A"]. *)
Lemma sanitize_not_only_filter :
  ~ (forall (U : Unicode) (s : pystr), sanitize s = List.filter keeps s).
Proof.
  intros H. specialize (H ascii_only (str "A ")). vm_compute in H. discriminate.
Qed.

(** C6, amended: the sanitising line keeps, in order, exactly the
    characters that are alphanumeric, space, dash or underscore, and then
    drops the whitespace that ends the kept sequence; what is left does not
    end in whitespace. *)
Theorem sanitize_filter_then_rstrip (U : Unicode) (s : pystr) :
  exists trailing,
    List.filter keeps s = sanitize s ++ trailing
    /\ Forall (fun c => isspace c = true /\ keeps c = true /\ In c s) trailing
    /\ (sanitize s = [] \/ exists r c, sanitize s = r ++ [c] /\ isspace c = false)
    /\ (forall c, In c (sanitize s) -> keeps c = true /\ In c s).
Proof.
  unfold sanitize.
  destruct (rstrip_spec (List.filter keeps s)) as (t & Heq & Hsp & Hlast).
  assert (Hin : forall c, In c (List.filter keeps s) -> keeps c = true /\ In c s).
  { intros c Hc. apply List.filter_In in Hc. tauto. }
  exists t. split; [assumption|]. split; [|split; [assumption|]].
  - apply List.Forall_forall. intros c Hc. split.
    + revert c Hc. apply List.Forall_forall. assumption.
    + apply Hin. rewrite Heq. apply List.in_or_app. right. assumption.
  - intros c Hc. apply Hin. rewrite Heq. apply List.in_or_app. left. assumption.
Qed.

(** ** Batch file names *)

Lemma chars_uint_uint_chars u : chars_uint (uint_chars u) = u.
Proof. induction u; simpl; congruence. Qed.

Lemma uint_chars_digits u : Forall (fun c => is_digit c = true) (uint_chars u).
Proof. induction u; simpl; constructor; auto. Qed.

Lemma chars_uint_zeros k s :
  Nat.of_uint (chars_uint (List.repeat 48 k ++ s)) = Nat.of_uint (chars_uint s).
Proof. induction k as [|k IH]; [reflexivity|]. simpl. exact IH. Qed.

Lemma fmt_04d_value n : Nat.of_uint (chars_uint (fmt_04d n)) = n.
Proof.
  unfold fmt_04d, fmt_d.
  rewrite chars_uint_zeros, chars_uint_uint_chars. apply Unsigned.of_to.
Qed.

Lemma fmt_04d_injective m n : fmt_04d m = fmt_04d n -> m = n.
Proof.
  intros H. rewrite <- (fmt_04d_value m), <- (fmt_04d_value n), H. reflexivity.
Qed.

Lemma fmt_04d_digits n : Forall (fun c => is_digit c = true) (fmt_04d n).
Proof.
  unfold fmt_04d, fmt_d. apply List.Forall_app. split; [|apply uint_chars_digits].
  apply List.Forall_forall. intros c Hc. apply List.repeat_spec in Hc. subst c. reflexivity.
Qed.

(** Two runs of digits, each closed by an underscore, that start equal
    texts are the same run. *)
Lemma digits_underscore_inj d1 d2 r1 r2 :
  Forall (fun c => is_digit c = true) d1 ->
  Forall (fun c => is_digit c = true) d2 ->
  d1 ++ 95 :: r1 = d2 ++ 95 :: r2 -> d1 = d2.
Proof.
  intros H1. revert d2. induction H1 as [|c d1 Hc _ IH]; intros d2 H2 Heq.
  - destruct H2 as [|c d2 Hc _]; [reflexivity|].
    simpl in Heq. injection Heq as <- _. discriminate.
  - destruct H2 as [|c' d2 Hc' H2].
    + simpl in Heq. injection Heq as -> _. discriminate.
    + simpl in Heq. injection Heq as -> Heq. f_equal. apply IH; assumption.
Qed.

Section BatchNames.
Context {U : Unicode}.

Lemma digit_keeps c : is_digit c = true -> keeps c = true.
Proof.
  unfold is_digit, keeps, isalnum, between. intros H.
  apply andb_true_iff in H as [H1 H2].
  apply N.leb_le in H1. apply N.leb_le in H2.
  assert (Hlt : (c <? 128) = true) by (apply N.ltb_lt; lia).
  rewrite Hlt. apply N.leb_le in H1. apply N.leb_le in H2. rewrite H1, H2. reflexivity.
Qed.

Lemma filter_digits d :
  Forall (fun c => is_digit c = true) d -> List.filter keeps d = d.
Proof.
  induction 1 as [|c d Hc _ IH]; [reflexivity|].
  simpl. rewrite (digit_keeps c Hc), IH. reflexivity.
Qed.

Lemma rstrip_before_underscore s r : rstrip (s ++ 95 :: r) = s ++ 95 :: rstrip r.
Proof.
  assert (H : rstrip (95 :: r) = 95 :: rstrip r)
    by (apply rstrip_keeps_nonspace; reflexivity).
  rewrite rstrip_app_nonempty; rewrite H; [reflexivity | discriminate].
Qed.

(** The shape of a batch file name: the kept part of the prefix, the
    index, an underscore, the kept part of the text. *)
Lemma batch_filename_shape prefix i text :
  Frame.batch_filename prefix i text =
  List.filter keeps prefix ++ fmt_04d (i + 1) ++
    95 :: rstrip (List.filter keeps (slice_to 20 text)).
Proof.
  unfold Frame.batch_filename, sanitize.
  rewrite !List.filter_app, (filter_digits _ (fmt_04d_digits _)).
  change (List.filter keeps (str "_")) with [95].
  change ([95] ++ ?l) with (95 :: l).
  rewrite List.app_assoc, rstrip_before_underscore, <- List.app_assoc. reflexivity.
Qed.

End BatchNames.

(** C8: within one run, the file names of two distinct items differ,
    whatever the two texts are. *)
Theorem batch_filename_distinct (U : Unicode) (prefix : pystr) (i j : nat)
    (text_i text_j : pystr) :
  i <> j ->
  Frame.batch_filename prefix i text_i <> Frame.batch_filename prefix j text_j.
Proof.
  intros Hij Heq. apply Hij.
  rewrite !batch_filename_shape in Heq.
  apply List.app_inv_head in Heq.
  apply digits_underscore_inj in Heq; try apply fmt_04d_digits.
  apply fmt_04d_injective in Heq. lia.
Qed.

(** Items 1 and 2 of a run whose texts sanitise to the same string. *)
Lemma batch_filename_distinct_witness :
  0%nat <> 1%nat /\
  Frame.batch_filename (U := ascii_only) (str "x_") 0 (str "a!")
    <> Frame.batch_filename (U := ascii_only) (str "x_") 1 (str "a?").
Proof.
  split; [lia|]. apply (batch_filename_distinct ascii_only). lia.
Defined.

(** ** Settings *)

(** C9: what [save_settings] wrote is what a fresh start reads: every
    field of the saved settings is in the loaded settings with the same value. *)
Theorem settings_round_trip (W : World) (settings : dict) (st : State) :
  settings_writable st = true ->
  settings_readable (snd (Frame.save_settings settings st)) = true ->
  exists loaded st',
    Frame.init_settings (snd (Frame.save_settings settings st)) = (Ok loaded, st')
    /\ loaded = settings ∪ Frame.default_settings
    /\ forall key v, settings !! key = Some v -> loaded !! key = Some v.
Proof.
  intros Hw Hr. unfold Frame.init_settings, Frame.load_settings.
  unfold Frame.save_settings in *. rewrite Hw in *. simpl in *. rewrite Hr.
  eexists _, _. split; [reflexivity|]. split; [reflexivity|].
  intros key v Hk. apply lookup_union_Some_l. exact Hk.
Qed.

Lemma settings_round_trip_witness :
  exists loaded st',
    Frame.init_settings (W := obliging)
      (snd (Frame.save_settings (W := obliging) changed_settings blank)) = (Ok loaded, st')
    /\ loaded = changed_settings ∪ Frame.default_settings (W := obliging)
    /\ forall key v, changed_settings !! key = Some v -> loaded !! key = Some v.
Proof.
  apply (settings_round_trip obliging changed_settings blank); reflexivity.
Defined.

(** ** Running a computation *)

Ltac unfold_calls :=
  unfold construct, save, Canvas, drawImage, showPage, canvas_save_doc, path_exists,
    remove, now, print, subscript, modify, lift, get in *.

Ltac unfold_monad := unfold bind, ret, raise, try_except in *.

(** Splits on the first test or call that a hypothesis is stuck on. *)
Ltac split_stuck H :=
  match type of H with
  | context [match ?x with _ => _ end] =>
      lazymatch x with
      | context [match _ with _ => _ end] => fail
      | _ => let E := fresh "E" in destruct x eqn:E; simpl in H
      end
  | context [if ?x then _ else _] =>
      lazymatch x with
      | context [if _ then _ else _] => fail
      | _ => let E := fresh "E" in destruct x eqn:E; simpl in H
      end
  end.

(** ** The single-item generator *)

Section SingleItem.
Context {U : Unicode} {W : World}.

Lemma subscript_known {V} (d : gmap pystr V) key v st :
  d !! key = Some v -> subscript d key st = (Ok v, st).
Proof. intros H. unfold subscript. rewrite H. reflexivity. Qed.

Lemma subscript_unknown {V} (d : gmap pystr V) key st :
  d !! key = None -> subscript d key st = (@Raise V (KeyError key), st).
Proof. intros H. unfold subscript. rewrite H. reflexivity. Qed.

(** [make_options] reads the settings and leaves the state alone. *)
Lemma make_options_pure settings a b st r st' :
  make_options settings a b st = (r, st') -> st' = st.
Proof.
  unfold make_options. unfold_monad. unfold subscript.
  intros H. unfold_monad.
  repeat (destruct (settings !! _); simpl in H; try (injection H as _ <-; reflexivity)).
Qed.

End SingleItem.

Section SingleItemFacts.
Context {U : Unicode} {W : World}.

Lemma frame_unknown_symbology settings text barcode_type output_format output_dir filename st :
  Frame.barcode_types !! barcode_type = None ->
  Frame.generate_barcode settings text barcode_type output_format output_dir filename st
  = (Raise (KeyError barcode_type), st).
Proof.
  intros H. unfold Frame.generate_barcode, try_except, bind.
  rewrite (subscript_unknown _ _ _ H). reflexivity.
Qed.

Lemma logic_unknown_symbology settings text barcode_type output_format output_dir filename st :
  Logic.barcode_types !! barcode_type = None ->
  Logic.generate_barcode settings text barcode_type output_format output_dir filename st
  = (Raise (KeyError barcode_type), st).
Proof.
  intros H. unfold Logic.generate_barcode, try_except, bind.
  rewrite (subscript_unknown _ _ _ H). reflexivity.
Qed.

Lemma single_refuses_blank settings entered barcode_type output_format output_dir st :
  strip entered = [] ->
  Frame.on_generate_single settings entered barcode_type output_format output_dir st
  = (Ok (Some Frame.PleaseEnterText), st).
Proof. intros H. unfold Frame.on_generate_single. rewrite H. reflexivity. Qed.

End SingleItemFacts.

(** C5, as stated, fails for the empty text: [generate_barcode] never looks
    at the text, it hands it to the barcode class.  With a class that accepts
    the empty text, the call returns [True] and the file is written. *)
Lemma empty_text_generates :
  exists st',
    Frame.generate_barcode (U := ascii_only) (W := obliging) first_settings
      [] (str "Code39") (str "PNG") (str "out") (Some (str "f")) blank = (Ok true, st')
    /\ files st' = {[ str "out/f.png" ]}.
Proof. eexists. split; vm_compute; reflexivity. Qed.

(** C5, amended: a symbology name that is not a key of the registry makes
    the generator raise the [KeyError] of the lookup and leaves the machine
    as it was, so no file is written; the generator itself does not test the
    text, it is the handler [on_generate_single] that refuses a text that is
    empty once stripped, before the generator is called. *)
Theorem unknown_symbology_or_blank_text (U : Unicode) (W : World) (settings : dict)
    (text barcode_type output_format output_dir : pystr) (filename : option pystr)
    (st : State) :
  (Frame.barcode_types !! barcode_type = None ->
   Frame.generate_barcode settings text barcode_type output_format output_dir filename st
   = (Raise (KeyError barcode_type), st))
  /\ (Logic.barcode_types !! barcode_type = None ->
      Logic.generate_barcode settings text barcode_type output_format output_dir filename st
      = (Raise (KeyError barcode_type), st))
  /\ (strip text = [] ->
      Frame.on_generate_single settings text barcode_type output_format output_dir st
      = (Ok (Some Frame.PleaseEnterText), st)).
Proof.
  split; [apply frame_unknown_symbology|].
  split; [apply logic_unknown_symbology | apply single_refuses_blank].
Qed.

Lemma unknown_symbology_or_blank_text_witness :
  Frame.generate_barcode (U := ascii_only) (W := obliging) first_settings
    (str "  ") (str "QR") (str "PNG") (str "out") None blank
  = (Raise (KeyError (str "QR")), blank)
  /\ Logic.generate_barcode (U := ascii_only) (W := obliging) first_settings
       (str "  ") (str "QR") (str "PNG") (str "out") None blank
     = (Raise (KeyError (str "QR")), blank)
  /\ Frame.on_generate_single (U := ascii_only) (W := obliging) first_settings
       (str "  ") (str "QR") (str "PNG") (str "out") blank
     = (Ok (Some Frame.PleaseEnterText), blank).
Proof.
  destruct (unknown_symbology_or_blank_text ascii_only obliging first_settings
              (str "  ") (str "QR") (str "PNG") (str "out") None blank)
    as (H1 & H2 & H3).
  split; [apply H1; reflexivity|].
  split; [apply H2; reflexivity | apply H3; reflexivity].
Defined.

(** ** The temporary image of a document *)

Section PdfFacts.
Context {U : Unicode} {W : World}.

Lemma logic_pdf_returns cls text output_dir filename options st p st' :
  Logic.generate_pdf_barcode cls text output_dir filename options st = (Ok p, st') ->
  exists temp s,
    writer_save st {| code_class := cls; code_text := text; code_writer := ImageWriter |}
      (str "temp_barcode") options = Some temp
    /\ os_remove s temp = true
    /\ p = path_join output_dir (filename ++ str ".pdf")
    /\ path_join output_dir (filename ++ str ".pdf") ∈ files s
    /\ files st' = files s ∖ {[ temp ]}.
Proof.
  unfold Logic.generate_pdf_barcode. unfold_calls. unfold_monad. intros H.
  repeat split_stuck H; try discriminate.
  - injection H as <- <-. eexists _, _. repeat split; eauto. simpl. set_solver.
  - apply bool_decide_eq_false in E4. exfalso. apply E4. set_solver.
Qed.

Lemma frame_pdf_returns settings text barcode_type output_dir filename st b st' :
  Frame.generate_pdf_barcode settings text barcode_type output_dir filename st = (Ok b, st') ->
  exists cls options temp s,
    Frame.barcode_types !! barcode_type = Some cls
    /\ writer_save st {| code_class := cls; code_text := text; code_writer := ImageWriter |}
         (str "temp_barcode") options = Some temp
    /\ os_remove s temp = true
    /\ b = true
    /\ path_join output_dir (filename ++ str ".pdf") ∈ files s
    /\ files st' = files s ∖ {[ temp ]}.
Proof.
  unfold Frame.generate_pdf_barcode, make_options. unfold_calls. unfold_monad. intros H.
  repeat split_stuck H; try discriminate.
  all: try (injection H as <- <-; eexists _, _, _, _; repeat split; eauto;
            simpl; set_solver).
  all: match goal with
       | E : bool_decide _ = false |- _ =>
           apply bool_decide_eq_false in E; exfalso; apply E; set_solver
       end.
Qed.

End PdfFacts.

(** C3, as stated, fails.  Where files cannot be deleted, the document is
    saved and the call nevertheless ends in the error of [os.remove]: the
    failure of the deletion is the result of the operation.  Where the
    document cannot be saved, the call ends in that error and the temporary
    image stays on disk. *)
Lemma pdf_temp_image_not_always_removed :
  (exists st',
     Frame.generate_pdf_barcode (W := undeletable) first_settings
       (str "A1") (str "Code128") (str "out") (str "f") blank
     = (Raise (OSError (str "temp_barcode")), st')
     /\ files st' = {[ str "out/f.pdf"; str "temp_barcode" ]})
  /\ (exists st',
        Frame.generate_pdf_barcode (W := unsavable) first_settings
          (str "A1") (str "Code128") (str "out") (str "f") blank
        = (Raise (CanvasError (str "out/f.pdf")), st')
        /\ files st' = {[ str "temp_barcode" ]}).
Proof. split; eexists; split; vm_compute; reflexivity. Qed.

(** C3, amended: when a document generation returns, the temporary image
    that the writer created has been deleted, after the document was saved;
    the deletion must have succeeded for the call to return, since its
    failure is raised to the caller. *)
Theorem pdf_temp_image_removed_on_return (U : Unicode) (W : World) :
  (forall settings text barcode_type output_dir filename st b st',
     Frame.generate_pdf_barcode settings text barcode_type output_dir filename st
     = (Ok b, st') ->
     exists cls options temp s,
       Frame.barcode_types !! barcode_type = Some cls
       /\ writer_save st
            {| code_class := cls; code_text := text; code_writer := ImageWriter |}
            (str "temp_barcode") options = Some temp
       /\ os_remove s temp = true
       /\ path_join output_dir (filename ++ str ".pdf") ∈ files s
       /\ temp ∉ files st')
  /\ (forall cls text output_dir filename options st p st',
        Logic.generate_pdf_barcode cls text output_dir filename options st = (Ok p, st') ->
        exists temp s,
          writer_save st
            {| code_class := cls; code_text := text; code_writer := ImageWriter |}
            (str "temp_barcode") options = Some temp
          /\ os_remove s temp = true
          /\ path_join output_dir (filename ++ str ".pdf") ∈ files s
          /\ temp ∉ files st').
Proof.
  split.
  - intros * H.
    apply frame_pdf_returns in H as (cls & o & temp & s & Hc & Hw & Hr & _ & Hp & Hf).
    exists cls, o, temp, s. repeat split; try assumption.
    rewrite Hf. intros [_ Hn]%elem_of_difference.
    apply Hn, elem_of_singleton. reflexivity.
  - intros * H. apply logic_pdf_returns in H as (temp & s & Hw & Hr & _ & Hp & Hf).
    exists temp, s. repeat split; try assumption.
    rewrite Hf. intros [_ Hn]%elem_of_difference.
    apply Hn, elem_of_singleton. reflexivity.
Qed.

Lemma pdf_temp_image_removed_on_return_witness :
  exists cls options temp s,
    Frame.barcode_types !! str "Code128" = Some cls
    /\ writer_save (World := obliging) blank
         {| code_class := cls; code_text := str "A1"; code_writer := ImageWriter |}
         (str "temp_barcode") options = Some temp
    /\ os_remove (World := obliging) s temp = true
    /\ path_join (str "out") (str "f" ++ str ".pdf") ∈ files s
    /\ temp ∉ files
         (snd (Frame.generate_pdf_barcode (W := obliging) first_settings
                 (str "A1") (str "Code128") (str "out") (str "f") blank)).
Proof.
  apply (proj1 (pdf_temp_image_removed_on_return ascii_only obliging)
           first_settings (str "A1") (str "Code128") (str "out") (str "f") blank true).
  vm_compute. reflexivity.
Defined.

(** ** The batch run *)

Section BatchFacts.
Context {U : Unicode} {W : World}.
Variable settings : dict.

(** What one turn of the loop over individual files does, from what the
    generator does on the derived file name. *)
Lemma generate_item_unfold barcode_type output_format output_dir prefix i text acc st :
  Frame.generate_item settings barcode_type output_format output_dir prefix i text acc st
  = match Frame.generate_barcode settings text barcode_type
            (if bool_decide (output_format = str "PDF (Individual)")
             then str "PDF" else output_format)
            output_dir
            (Some (sanitize (prefix ++ fmt_04d (i + 1) ++ str "_" ++ slice_to 20 text))) st
    with
    | (Ok true, s) =>
        (Ok {| Frame.successful := Frame.successful acc + 1;
               Frame.failed_items := Frame.failed_items acc |}, set_gauge (i + 1) s)
    | (Ok false, s) =>
        (Ok {| Frame.successful := Frame.successful acc;
               Frame.failed_items := Frame.failed_items acc ++ [Frame.Failed text] |},
         set_gauge (i + 1) s)
    | (Raise e, s) =>
        (Ok {| Frame.successful := Frame.successful acc;
               Frame.failed_items := Frame.failed_items acc ++ [Frame.FailedWith text e] |},
         set_gauge (i + 1) s)
    end.
Proof.
  unfold Frame.generate_item, Frame.batch_filename, try_except, bind, modify, ret.
  match goal with
  | |- context [Frame.generate_barcode ?a ?b ?c ?d ?e ?f ?g] =>
      destruct (Frame.generate_barcode a b c d e f g) as [[[]|e'] s]
  end; reflexivity.
Qed.



End BatchFacts.




(** ** Individual files *)

Section IndividualFacts.
Context {U : Unicode} {W : World}.
Variable settings : dict.

(** With the four fields present, the options are built. *)
Lemma make_options_complete a b :
  complete settings ->
  exists options, forall st, make_options settings a b st = (Ok options, st).
Proof.
  unfold complete, generator_fields. intros H.
  apply Forall_cons in H as [[w Hw] H]. apply Forall_cons in H as [[h Hh] H].
  apply Forall_cons in H as [[f Hf] H]. apply Forall_cons in H as [[t Ht] _].
  eexists. intros st. unfold make_options, bind.
  rewrite (subscript_known _ _ _ _ Hw), (subscript_known _ _ _ _ Hh),
    (subscript_known _ _ _ _ Hf), (subscript_known _ _ _ _ Ht).
  reflexivity.
Qed.

(** A PNG request that every step serves: the file is the one that the
    writer makes of the path [output_dir/filename.png]. *)
Lemma generate_png (written : pystr -> pystr) text barcode_type cls output_dir filename st :
  complete settings ->
  (forall s code name options,
     code_writer code = ImageWriter -> writer_save s code name options = Some (written name)) ->
  Frame.barcode_types !! barcode_type = Some cls ->
  accepts cls text = true ->
  Frame.generate_barcode settings text barcode_type (str "PNG") output_dir (Some filename) st
  = (Ok true,
     set_files
       (fun fs => {[ written (path_join output_dir (filename ++ str ".png")) ]} ∪ fs) st).
Proof.
  intros Hset Hsave Hcls Hacc.
  destruct (make_options_complete f100_0 f16_5 Hset) as (options & Hopt).
  unfold Frame.generate_barcode, try_except, bind.
  rewrite (subscript_known _ _ _ _ Hcls). unfold ret at 1. rewrite Hopt.
  change (bool_decide (str "PNG" = str "SVG")) with false.
  change (bool_decide (str "PNG" = str "PDF")) with false. simpl.
  unfold construct. rewrite Hacc. unfold ret at 1. unfold save.
  rewrite Hsave by reflexivity. reflexivity.
Qed.

(** The loop over individual PNG files when no item fails. *)
Lemma individual_png_loop (written : pystr -> pystr) barcode_type cls output_dir prefix data :
  complete settings ->
  (forall s code name options,
     code_writer code = ImageWriter -> writer_save s code name options = Some (written name)) ->
  Frame.barcode_types !! barcode_type = Some cls ->
  Forall (fun text => accepts cls text = true) data ->
  forall i acc st,
  exists st',
    for_enumerate (Frame.generate_item settings barcode_type (str "PNG") output_dir prefix)
      i data acc st
    = (Ok {| Frame.successful := Frame.successful acc + List.length data;
             Frame.failed_items := Frame.failed_items acc |}, st')
    /\ forall path,
         path ∈ files st'
         <-> path ∈ files st
             \/ exists k text,
                  data !! k = Some text
                  /\ path = written
                             (path_join output_dir
                                (sanitize (prefix ++ fmt_04d (i + k + 1) ++ str "_"
                                           ++ List.firstn 20 text) ++ str ".png")).
Proof.
  intros Hset Hsave Hcls. induction 1 as [|text data Hacc _ IH]; intros i acc st.
  - exists st. cbn [for_enumerate List.length]. rewrite Nat.add_0_r. destruct acc.
    split; [reflexivity|]. intros path. split; [tauto|].
    intros [H|(k & t & Hk & _)]; [exact H | discriminate Hk].
  - cbn [for_enumerate]. unfold bind. rewrite generate_item_unfold.
    change (bool_decide (str "PNG" = str "PDF (Individual)")) with false. cbv iota.
    rewrite (generate_png written text barcode_type cls) by assumption.
    match goal with
    | |- context [for_enumerate _ (S i) data ?a ?s] =>
        destruct (IH (S i) a s) as (st' & -> & Hfiles)
    end.
    exists st'. cbn [Frame.successful Frame.failed_items List.length] in *.
    split; [do 3 f_equal; lia|].
    intros path. rewrite Hfiles. cbn [files set_gauge set_files].
    rewrite elem_of_union, elem_of_singleton. unfold slice_to. split.
    + intros [[-> | H] | (k & t & Hk & ->)].
      * right. exists 0%nat, text. rewrite Nat.add_0_r. split; reflexivity.
      * left. exact H.
      * right. exists (S k), t. split; [exact Hk|].
        replace (i + S k + 1)%nat with (S i + k + 1)%nat by lia. reflexivity.
    + intros [H | ([|k] & t & Hk & ->)].
      * left; right. exact H.
      * injection Hk as ->. rewrite Nat.add_0_r. left; left. reflexivity.
      * right. exists k, t. split; [exact Hk|].
        replace (i + S k + 1)%nat with (S i + k + 1)%nat by lia. reflexivity.
Qed.

End IndividualFacts.

(** C2: in a run over individual PNG files in which every item is
    generated, the item of 0-based index [i] leaves the file that the writer
    makes of the path [output_dir/name.png], where [name] is
    [sanitize(prefix + index(i+1, 4 digits) + "_" + text[:20])]; these are
    the only new files, every item is counted as a success and none as a
    failure.  The writer is [written]: handed a path it creates the file
    [written path].  For the writers of python-barcode [written path] is
    [path + ".png"], so the files of the scenario are [x_0001_A1.png.png],
    [x_0002_B2.png.png] and [x_0003_C3.png.png]. *)
Theorem batch_individual_files (U : Unicode) (W : World) (settings : dict)
    (data : list pystr) (barcode_type output_dir prefix : pystr) (cls : barcode_class)
    (written : pystr -> pystr) (st : State) :
  data <> [] ->
  complete settings ->
  Frame.barcode_types !! barcode_type = Some cls ->
  Forall (fun text => accepts cls text = true) data ->
  (forall s code name options,
     code_writer code = ImageWriter -> writer_save s code name options = Some (written name)) ->
  exists st',
    Frame.on_generate_batch settings data barcode_type (str "PNG") output_dir prefix st
    = (Ok (Some {| Frame.successful := List.length data; Frame.failed_items := [] |}), st')
    /\ forall path,
         path ∈ files st'
         <-> path ∈ files st
             \/ exists i text,
                  data !! i = Some text
                  /\ path = written
                             (path_join output_dir
                                (sanitize (prefix ++ fmt_04d (i + 1) ++ str "_"
                                           ++ List.firstn 20 text) ++ str ".png")).
Proof.
  intros Hdata Hset Hcls Hacc Hsave. unfold Frame.on_generate_batch.
  destruct data as [|text data]; [congruence|].
  unfold try_except, bind at 1. unfold modify at 1.
  change (bool_decide (str "PNG" = str "PDF (Combined)")) with false. cbn [andb].
  unfold bind.
  destruct (individual_png_loop settings written barcode_type cls output_dir prefix
              (text :: data) Hset Hsave Hcls Hacc 0
              {| Frame.successful := 0; Frame.failed_items := [] |} (set_gauge 0 st))
    as (st' & -> & Hfiles).
  exists st'. split; [reflexivity|]. exact Hfiles.
Qed.

Lemma batch_individual_files_witness :
  exists st',
    Frame.on_generate_batch (U := ascii_only) (W := appending) first_settings three_items
      (str "Code128") (str "PNG") (str "out") (str "x_") blank
    = (Ok (Some {| Frame.successful := List.length three_items;
                   Frame.failed_items := [] |}), st')
    /\ forall path,
         path ∈ files st'
         <-> path ∈ files blank
             \/ exists i text,
                  three_items !! i = Some text
                  /\ path = png_name
                             (path_join (str "out")
                                (sanitize (U := ascii_only)
                                   (str "x_" ++ fmt_04d (i + 1) ++ str "_"
                                    ++ List.firstn 20 text) ++ str ".png")).
Proof.
  apply (batch_individual_files ascii_only appending first_settings three_items
           (str "Code128") (str "out") (str "x_") Code128 png_name blank).
  - discriminate.
  - unfold complete. repeat constructor; vm_compute; eexists; reflexivity.
  - reflexivity.
  - repeat constructor.
  - intros s [c t w] name options Hw. simpl in Hw. rewrite Hw. reflexivity.
Defined.

(** The scenario of C2 with the writers of python-barcode: three successes,
    no failure, and the files carry the extension twice; no file is called
    [x_0001_A1.png]. *)
Lemma scenario_files_carry_the_extension_twice :
  let run := Frame.on_generate_batch (U := ascii_only) (W := appending) first_settings
               three_items (str "Code128") (str "PNG") (str "out") (str "x_") blank in
  fst run = Ok (Some {| Frame.successful := 3; Frame.failed_items := [] |})
  /\ files (snd run) = {[ str "out/x_0001_A1.png.png"; str "out/x_0002_B2.png.png";
                          str "out/x_0003_C3.png.png" ]}
  /\ str "out/x_0001_A1.png" ∉ files (snd run).
Proof.
  intros run.
  assert (Hfiles : files (snd run)
                   = {[ str "out/x_0001_A1.png.png"; str "out/x_0002_B2.png.png";
                        str "out/x_0003_C3.png.png" ]}) by (vm_compute; reflexivity).
  split; [vm_compute; reflexivity|]. split; [exact Hfiles|]. rewrite Hfiles.
  rewrite !not_elem_of_union, !not_elem_of_singleton. repeat split; discriminate.
Qed.

(** An item whose text is longer than 20 characters: the name is cut after
    them, and the space is kept. *)
Example long_text_file_name :
  Frame.batch_filename (U := ascii_only) (str "x_") 11 (str "abcdefghij klmnopqrstuvwxyz")
  = str "x_0012_abcdefghij klmnopqrs".
Proof. vm_compute. reflexivity. Qed.

(** ** Document output without the document library *)

Section WithoutLibrary.
Context {U : Unicode} {W : World}.
Variable settings : dict.
Hypothesis no_library : HAS_PDF_SUPPORT = false.

(** The window offers no PDF format. *)
Lemma formats_without_library :
  Frame.single_formats = [str "PNG"; str "SVG"]
  /\ Frame.batch_formats = [str "PNG"; str "SVG"].
Proof.
  unfold Frame.single_formats, Frame.batch_formats. rewrite no_library. split; reflexivity.
Qed.

(** The generator of documents of the window raises. *)
Lemma frame_pdf_unavailable text barcode_type output_dir filename st :
  Frame.generate_pdf_barcode settings text barcode_type output_dir filename st
  = (Raise PdfUnavailable, st).
Proof. unfold Frame.generate_pdf_barcode. rewrite no_library. reflexivity. Qed.

(** The stand-alone generator raises. *)
Lemma logic_pdf_unavailable text barcode_type output_format output_dir filename st cls :
  Logic.barcode_types !! barcode_type = Some cls ->
  complete settings ->
  upper output_format = str "PDF" ->
  Logic.generate_barcode settings text barcode_type output_format output_dir filename st
  = (Raise PdfUnavailable, st).
Proof.
  intros Hcls Hset Hfmt.
  destruct (make_options_complete settings f5_0 f6_5 Hset) as (options & Hopt).
  unfold Logic.generate_barcode, try_except. unfold bind at 1.
  rewrite (subscript_known _ _ _ _ Hcls). unfold bind at 1.
  destruct filename as [f|]; [unfold ret at 1 | unfold bind at 1, now, ret at 1];
    unfold bind at 1; rewrite Hopt, Hfmt, no_library; reflexivity.
Qed.

End WithoutLibrary.

(** C4, as stated, fails on [generate_barcode] of [src/try.py]: called
    for PDF without the document library it writes a PNG file and returns
    [True]. *)
Lemma frame_pdf_call_writes_png :
  HAS_PDF_SUPPORT (World := appending_without_pdf) = false
  /\ Frame.generate_barcode (U := ascii_only) (W := appending_without_pdf) first_settings
       (str "A1") (str "Code128") (str "PDF") (str "out") (Some (str "f")) blank
     = (Ok true, set_files (fun _ => {[ str "out/f.png.png" ]}) blank).
Proof. split; [reflexivity|]. vm_compute. reflexivity. Qed.

(** C4, amended: without the document library the window offers PNG and
    SVG only, in the tab of the single barcode and in the tab of the batch,
    so that neither handler can ask for a document; [generate_pdf_barcode]
    of the window raises the error of the missing library and changes
    nothing, and so does the stand-alone generator when it is asked for PDF,
    in any case of the letters, with a registered symbology and complete
    settings; [generate_barcode] of the window tests
    [output_format == 'PDF' and HAS_PDF_SUPPORT] and serves a call for PDF as
    it serves a call for PNG. *)
Theorem pdf_without_library (U : Unicode) (W : World) (settings : dict) (st : State) :
  HAS_PDF_SUPPORT = false ->
  (forall output_format,
     In output_format Frame.single_formats -> output_format <> str "PDF")
  /\ (forall output_format,
        In output_format Frame.batch_formats ->
        output_format <> str "PDF (Combined)"
        /\ (if bool_decide (output_format = str "PDF (Individual)")
            then str "PDF" else output_format) <> str "PDF")
  /\ (forall text barcode_type output_dir filename,
        Frame.generate_pdf_barcode settings text barcode_type output_dir filename st
        = (Raise PdfUnavailable, st))
  /\ (forall text barcode_type output_format output_dir filename cls,
        Logic.barcode_types !! barcode_type = Some cls ->
        complete settings ->
        upper output_format = str "PDF" ->
        Logic.generate_barcode settings text barcode_type output_format output_dir filename st
        = (Raise PdfUnavailable, st))
  /\ (forall text barcode_type output_dir filename,
        Frame.generate_barcode settings text barcode_type (str "PDF") output_dir filename st
        = Frame.generate_barcode settings text barcode_type (str "PNG") output_dir filename st).
Proof.
  intros Hpdf. destruct (formats_without_library Hpdf) as [Hsingle Hbatch].
  split; [|split; [|split; [|split]]].
  - intros fmt. rewrite Hsingle. intros [<-|[<-|[]]]; discriminate.
  - intros fmt. rewrite Hbatch. intros [<-|[<-|[]]]; split; discriminate.
  - intros. apply frame_pdf_unavailable. exact Hpdf.
  - intros. eapply logic_pdf_unavailable; eassumption.
  - intros. unfold Frame.generate_barcode. rewrite Hpdf, !andb_false_r. reflexivity.
Qed.

Lemma pdf_without_library_witness :
  (forall output_format,
     In output_format (Frame.single_formats (W := appending_without_pdf)) ->
     output_format <> str "PDF")
  /\ (forall output_format,
        In output_format (Frame.batch_formats (W := appending_without_pdf)) ->
        output_format <> str "PDF (Combined)"
        /\ (if bool_decide (output_format = str "PDF (Individual)")
            then str "PDF" else output_format) <> str "PDF")
  /\ (forall text barcode_type output_dir filename,
        Frame.generate_pdf_barcode (W := appending_without_pdf)
          first_settings text barcode_type output_dir filename blank
        = (Raise PdfUnavailable, blank))
  /\ (forall text barcode_type output_format output_dir filename cls,
        Logic.barcode_types !! barcode_type = Some cls ->
        complete first_settings ->
        upper (U := ascii_only) output_format = str "PDF" ->
        Logic.generate_barcode (U := ascii_only) (W := appending_without_pdf)
          first_settings text barcode_type output_format output_dir filename blank
        = (Raise PdfUnavailable, blank))
  /\ (forall text barcode_type output_dir filename,
        Frame.generate_barcode (U := ascii_only) (W := appending_without_pdf)
          first_settings text barcode_type (str "PDF") output_dir filename blank
        = Frame.generate_barcode (U := ascii_only) (W := appending_without_pdf)
            first_settings text barcode_type (str "PNG") output_dir filename blank).
Proof.
  apply (pdf_without_library ascii_only appending_without_pdf first_settings blank).
  reflexivity.
Defined.

(** The stand-alone generator asked for ["pdf"] without the library. *)
Example logic_pdf_request_raises :
  Logic.generate_barcode (U := ascii_only) (W := appending_without_pdf) first_settings
    (str "A1") (str "Code128") (str "pdf") (str "out") (Some (str "f")) blank
  = (Raise PdfUnavailable, blank).
Proof. vm_compute. reflexivity. Qed.

(** ** The combined document *)

Lemma float_of_int_value z f : float_of_int z = Ok f -> f = float_of z 0.
Proof. unfold float_of_int. destruct (float_of z 0); congruence. Qed.

Lemma fsub_int_value a z f : fsub_int a z = Ok f -> f = fsub a (float_of z 0).
Proof.
  unfold fsub_int. destruct (float_of_int z) eqn:E; [|discriminate].
  apply float_of_int_value in E. congruence.
Qed.

Lemma fdiv_int_value a z f : fdiv_int a z = Ok f -> f = fdiv a (float_of z 0).
Proof.
  unfold fdiv_int. destruct (z =? 0)%Z; [discriminate|].
  destruct (float_of_int z) eqn:E; [|discriminate].
  apply float_of_int_value in E. congruence.
Qed.

(** Under [max(1, .)] rounding towards zero and rounding down agree. *)
Lemma max_int_is_max_floor q n :
  int_of_float q = Ok n -> Z.max 1 n = Z.max 1 (floor_of_float q).
Proof.
  destruct q as [s| s| |s m e]; unfold int_of_float, floor_of_float; try discriminate.
  - intros [= <-]. reflexivity.
  - intros [= <-]. destruct s; unfold cond_Zopp; [|reflexivity].
    change (- Z.pos m)%Z with (Z.neg m).
    assert (H1 : (0 <= Z.shiftl (Z.pos m) e)%Z) by (apply Z.shiftl_nonneg; lia).
    assert (H2 : (Z.shiftl (Z.neg m) e < 0)%Z).
    { destruct (Z.shiftl_nonneg (Z.neg m) e) as [H _].
      destruct (Z_lt_le_dec (Z.shiftl (Z.neg m) e) 0) as [|Hge]; [assumption|].
      specialize (H Hge). lia. }
    lia.
Qed.

Section LayoutFacts.
Context {W : World}.

(** The layout that the code computes is the layout of the specification. *)
Lemma calculate_layout_spec st lay st' :
  Frame.calculate_layout st = (Ok lay, st') ->
  st' = st
  /\ Frame.page_height lay = snd A4
  /\ Frame.barcodes_per_row lay = spec_items_per_row (fst A4)
  /\ Frame.barcodes_per_column lay = spec_items_per_column (snd A4)
  /\ Frame.barcodes_per_page lay = spec_items_per_page (fst A4) (snd A4).
Proof.
  unfold Frame.calculate_layout. destruct A4 as [pw ph]. unfold bind, lift, ret.
  unfold Frame.margin, Frame.barcode_width, Frame.barcode_height, Frame.spacing.
  destruct (fsub_int pw (2 * 72)) as [uw|] eqn:Euw; [|discriminate].
  destruct (fsub_int ph (2 * 72)) as [uh|] eqn:Euh; [|discriminate].
  destruct (fdiv_int uw (250 + 20)) as [qa|] eqn:Eqa; [|discriminate].
  destruct (int_of_float qa) as [na|] eqn:Ena; [|discriminate].
  destruct (fdiv_int uh (80 + 20)) as [qd|] eqn:Eqd; [|discriminate].
  destruct (int_of_float qd) as [nd|] eqn:End; [|discriminate].
  intros [= <- <-].
  apply fsub_int_value in Euw, Euh. apply fdiv_int_value in Eqa, Eqd.
  apply max_int_is_max_floor in Ena, End. subst uw uh qa qd.
  unfold spec_items_per_page, spec_items_per_row, spec_items_per_column. simpl.
  rewrite Ena, End. repeat split; reflexivity.
Qed.

End LayoutFacts.

Section CombinedFacts.
Context {W : World}.
Variables (lay : Frame.layout) (cls : barcode_class) (total : nat).
Hypothesis lay_height : Frame.page_height lay = snd A4.
Hypothesis lay_row : Frame.barcodes_per_row lay = spec_items_per_row (fst A4).
Hypothesis lay_page : Frame.barcodes_per_page lay = spec_items_per_page (fst A4) (snd A4).

Lemma calculate_position_spec i st xy st' :
  Frame.calculate_position lay i st = (Ok xy, st') ->
  st' = st /\ xy = (PInt (spec_x (fst A4) (snd A4) i), PFloat (spec_y (fst A4) (snd A4) i)).
Proof.
  unfold Frame.calculate_position, bind, lift, ret.
  rewrite lay_height, lay_row, lay_page.
  unfold Frame.margin, Frame.barcode_width, Frame.barcode_height, Frame.spacing.
  destruct (fsub_int (snd A4) 72) as [above|] eqn:Ea; [|discriminate].
  match goal with
  | |- context [fsub_int above ?z] => destruct (fsub_int above z) as [y|] eqn:Ey
  end; [|discriminate].
  intros [= <- <-]. apply fsub_int_value in Ea, Ey. subst. split; reflexivity.
Qed.

Lemma calculate_position_pure i st r st' :
  Frame.calculate_position lay i st = (r, st') -> st' = st.
Proof.
  unfold Frame.calculate_position, bind, lift, ret. intros E.
  repeat split_stuck E; injection E as _ <-; reflexivity.
Qed.

Lemma calculate_position_raises i st e st' :
  Frame.calculate_position lay i st = (Raise e, st') ->
  float_of_int ((spec_row (fst A4) (snd A4) i + 1) * (80 + 20)) = Raise e.
Proof.
  unfold Frame.calculate_position, bind, lift, ret.
  rewrite lay_height, lay_row, lay_page.
  unfold Frame.margin, Frame.barcode_width, Frame.barcode_height, Frame.spacing.
  unfold fsub_int, spec_row, spec_page_position.
  destruct (float_of_int 72) as [b|e72] eqn:E72; [|vm_compute in E72; discriminate E72].
  match goal with
  | |- context [float_of_int ?z] => destruct (float_of_int z) as [y|ey]
  end; [discriminate|].
  intros [= <- _]. reflexivity.
Qed.

(** One turn of the loop of the assembler. *)
Lemma add_item_spec options i text st p ops :
  canvas st = Some (p, ops) ->
  exists st' chunk msgs,
    Frame.add_item lay options cls total i text tt st = (Ok tt, st')
    /\ canvas st' = Some (p, ops ++ chunk)
    /\ console st' = console st ++ msgs
    /\ documents st' = documents st
    /\ item_outcome (fst A4) (snd A4) cls total i text chunk msgs.
Proof.
  intros Hc. unfold Frame.add_item, try_except. unfold bind at 1.
  unfold construct. destruct (accepts cls text) eqn:Eacc.
  2:{ unfold raise at 1. eexists _, [], _. unfold print, modify. split; [reflexivity|].
      cbn [canvas set_console console documents]. rewrite List.app_nil_r.
      split; [assumption|]. split; [reflexivity|]. split; [reflexivity|].
      right; right. eexists. split; [|split; reflexivity].
      left. split; [exact Eacc | reflexivity]. }
  unfold ret at 1. unfold bind at 1. unfold save at 1.
  match goal with
  | |- context [writer_save ?s ?c ?n ?o] => destruct (writer_save s c n o) as [temp|] eqn:Esave
  end.
  2:{ eexists _, [], _. unfold print, modify. split; [reflexivity|].
      cbn [canvas set_console console documents]. rewrite List.app_nil_r.
      split; [assumption|]. split; [reflexivity|]. split; [reflexivity|].
      right; right. eexists. split; [|split; reflexivity].
      right. split; [exact Eacc|]. left. split; [reflexivity|].
      eexists _, _. exact Esave. }
  unfold bind at 1.
  match goal with
  | |- context [Frame.calculate_position lay i ?s] =>
      destruct (Frame.calculate_position lay i s) as [[xy|e] s1] eqn:Epos
  end.
  2:{ pose proof (calculate_position_raises _ _ _ _ Epos) as Hover.
      apply calculate_position_pure in Epos as ->.
      eexists _, [], _. unfold print, modify. split; [reflexivity|].
      cbn [canvas set_console set_files console documents]. rewrite List.app_nil_r.
      split; [assumption|]. split; [reflexivity|]. split; [reflexivity|].
      right; right. eexists. split; [|split; reflexivity].
      right. split; [exact Eacc|]. right; left. exact Hover. }
  apply calculate_position_spec in Epos as [-> ->]. cbn [fst snd].
  fold (placed (fst A4) (snd A4) i temp).
  unfold bind at 1. unfold drawImage at 1. cbn [canvas set_files]. rewrite Hc.
  match goal with
  | |- context [canvas_draw ?s ?t] => destruct (canvas_draw s t) eqn:Edraw
  end.
  2:{ eexists _, [], _. unfold print, modify. split; [reflexivity|].
      cbn [canvas set_console set_files console documents]. rewrite List.app_nil_r.
      split; [assumption|]. split; [reflexivity|]. split; [reflexivity|].
      right; right. eexists. split; [|split; reflexivity].
      right. split; [exact Eacc|]. right; right. exists temp. split; [reflexivity|].
      split; [eexists _, _; exact Esave | eexists; exact Edraw]. }
  assert (Hdraw : item_drawn cls i text temp).
  { split; [exact Eacc|]. split; [eexists _, _; exact Esave | eexists; exact Edraw]. }
  unfold bind at 1. unfold path_exists at 1. cbn [files set_canvas set_files].
  match goal with
  | |- context [bool_decide ?P] => destruct (bool_decide P) eqn:Epresent
  end.
  2:{ apply bool_decide_eq_false in Epresent. exfalso. apply Epresent.
      apply elem_of_union_l, elem_of_singleton. reflexivity. }
  unfold bind at 1. unfold remove at 1.
  match goal with
  | |- context [os_remove ?s ?t] => destruct (os_remove s t) eqn:Eremove
  end.
  2:{ eexists _, [_], _. unfold print, modify. split; [reflexivity|].
      cbn [canvas set_console set_canvas set_files console documents].
      split; [reflexivity|]. split; [reflexivity|]. split; [reflexivity|].
      right; left. exists temp. split; [exact Hdraw|].
      split; [eexists; exact Eremove|]. split; reflexivity. }
  unfold bind at 1. rewrite lay_page.
  match goal with
  | |- context [if ?c then showPage else ret tt] => destruct c eqn:Ebreak
  end.
  - unfold showPage at 1. cbn [canvas set_canvas set_files].
    unfold modify. eexists _, [_; ShowPage], []. split; [reflexivity|].
    cbn [canvas set_gauge set_canvas set_files console documents].
    rewrite List.app_nil_r, <- List.app_assoc.
    split; [reflexivity|]. split; [reflexivity|]. split; [reflexivity|].
    left. exists temp. split; [exact Hdraw|]. unfold page_break. rewrite Ebreak.
    split; reflexivity.
  - unfold ret at 1. unfold modify. eexists _, [_], []. split; [reflexivity|].
    cbn [canvas set_gauge set_canvas set_files console documents].
    rewrite List.app_nil_r.
    split; [reflexivity|]. split; [reflexivity|]. split; [reflexivity|].
    left. exists temp. split; [exact Hdraw|]. unfold page_break. rewrite Ebreak.
    split; reflexivity.
Qed.

(** The loop of the assembler. *)
Lemma add_items_spec options items :
  forall i st p ops,
    canvas st = Some (p, ops) ->
    exists st' ops' msgs,
      for_enumerate (Frame.add_item lay options cls total) i items tt st = (Ok tt, st')
      /\ canvas st' = Some (p, ops ++ ops')
      /\ console st' = console st ++ msgs
      /\ documents st' = documents st
      /\ assembled (fst A4) (snd A4) cls total i items ops' msgs.
Proof.
  induction items as [|text items IH]; intros i st p ops Hc.
  - exists st, [], []. rewrite !List.app_nil_r. repeat split; try assumption; reflexivity.
  - cbn [for_enumerate]. unfold bind.
    destruct (add_item_spec options i text st p ops Hc)
      as (s1 & chunk & m & -> & Hc1 & Hcon1 & Hdoc1 & Hout).
    destruct (IH (S i) s1 p (ops ++ chunk) Hc1)
      as (st' & ops' & msgs' & -> & Hc' & Hcon' & Hdoc' & Hrest).
    exists st', (chunk ++ ops'), (m ++ msgs'). split; [reflexivity|].
    rewrite Hc', Hcon', Hcon1, Hdoc', Hdoc1, !List.app_assoc.
    repeat split; try reflexivity.
    cbn [assembled]. eexists _, _, _, _. repeat split; eassumption.
Qed.

End CombinedFacts.

Section CombinedRun.
Context {U : Unicode} {W : World}.
Variable settings : dict.

(** A run of the assembler that returns [True]. *)
Lemma combined_true data barcode_type output_dir prefix st st' :
  Frame.generate_combined_pdf settings data barcode_type output_dir prefix st = (Ok true, st') ->
  exists cls ops msgs,
    Frame.barcode_types !! barcode_type = Some cls
    /\ documents st' !! path_join output_dir (prefix ++ str "combined_barcodes.pdf") = Some ops
    /\ console st' = console st ++ msgs
    /\ assembled (fst A4) (snd A4) cls (List.length data) 0 data ops msgs.
Proof.
  unfold Frame.generate_combined_pdf.
  destruct HAS_PDF_SUPPORT; cbn [negb]; [|discriminate].
  unfold try_except.
  match goal with
  | |- context [let (_, _) := ?m st in _] => destruct (m st) as [[b|e] s] eqn:E
  end; [|discriminate].
  intros [= -> ->].
  unfold bind at 1 in E. unfold Canvas at 1 in E.
  destruct (canvas_new st _); [|discriminate].
  unfold bind at 1 in E. unfold subscript at 1 in E.
  destruct (Frame.barcode_types !! barcode_type) as [cls|] eqn:Ecls; [|discriminate].
  unfold ret at 1 in E. unfold bind at 1 in E.
  match type of E with
  | context [make_options ?s ?a ?b ?x] =>
      destruct (make_options s a b x) as [[options|e] s2] eqn:Eo; [|discriminate]
  end.
  apply make_options_pure in Eo as ->.
  unfold bind at 1 in E.
  match type of E with
  | context [Frame.calculate_layout ?x] =>
      destruct (Frame.calculate_layout x) as [[lay|e] s3] eqn:El; [|discriminate]
  end.
  apply calculate_layout_spec in El as (-> & Hh & Hr & _ & Hp).
  unfold bind at 1 in E.
  match type of E with
  | context [for_enumerate _ 0%nat data tt ?x] =>
      destruct (add_items_spec lay cls (List.length data) Hh Hr Hp options data 0%nat x
                  (path_join output_dir (prefix ++ str "combined_barcodes.pdf")) []
                  eq_refl)
        as (s4 & ops & msgs & Eloop & Hcan & Hcon & Hdoc & Hass)
  end.
  rewrite Eloop in E. unfold bind at 1 in E. unfold canvas_save_doc at 1 in E.
  rewrite Hcan in E. destruct (canvas_save s4 _ _); [|discriminate].
  injection E as <-.
  exists cls, ops, msgs. split; [reflexivity|]. split; [|split; assumption].
  cbn [documents set_documents set_files]. apply lookup_insert_eq.
Qed.


End CombinedRun.

Section AssembledFacts.
Context {W : World}.
Variables (pw ph : float) (cls : barcode_class) (total : nat).

(** Every image of the document sits where the specification places one
    of the items. *)
Lemma assembled_draws items :
  forall i ops msgs,
    assembled pw ph cls total i items ops msgs ->
    forall image x y w h,
      In (DrawImage image x y w h) ops ->
      exists k text,
        items !! k = Some text
        /\ x = PInt (spec_x pw ph (i + k)) /\ y = PFloat (spec_y pw ph (i + k))
        /\ w = 250%Z /\ h = 80%Z.
Proof.
  induction items as [|text items IH]; intros i ops msgs Hass image x y w h Hin.
  - destruct Hass as [-> _]. destruct Hin.
  - destruct Hass as (chunk & m & ops' & msgs' & -> & -> & Hout & Hrest).
    apply List.in_app_or in Hin as [Hin|Hin].
    + assert (Hd : exists img, DrawImage image x y w h = placed pw ph i img).
      { destruct Hout as [(img & _ & -> & _) | [(img & _ & _ & -> & _) | (e & _ & -> & _)]].
        - exists img. destruct Hin as [<-|Hin]; [reflexivity|].
          unfold page_break in Hin.
          destruct (_ && _) in Hin; [destruct Hin as [Hin|[]]; discriminate | destruct Hin].
        - exists img. destruct Hin as [<-|[]]. reflexivity.
        - destruct Hin. }
      destruct Hd as (img & Heq). unfold placed in Heq.
      injection Heq as -> -> -> -> ->.
      exists 0%nat, text. rewrite Nat.add_0_r. repeat split; reflexivity.
    + destruct (IH _ _ _ Hrest _ _ _ _ _ Hin) as (k & t & Hk & -> & -> & -> & ->).
      exists (S k), t. rewrite Nat.add_succ_r. repeat split; try reflexivity. exact Hk.
Qed.


(** An item that the barcode class accepts is in the document, at its
    place, unless the writer, the canvas or the arithmetic failed on it. *)
Lemma assembled_places items :
  forall i ops msgs,
    assembled pw ph cls total i items ops msgs ->
    forall k text,
      items !! k = Some text ->
      accepts cls text = true ->
      (forall s options,
         writer_save s (item_code cls text) (str "temp_barcode_" ++ fmt_d (i + k)) options
         <> None) ->
      (forall s image, canvas_draw s image = true) ->
      (forall e, float_of_int ((spec_row pw ph (i + k) + 1) * (80 + 20)) <> Raise e) ->
      exists image, In (placed pw ph (i + k) image) ops.
Proof.
  induction items as [|item items IH]; intros i ops msgs Hass k text Hk Hacc Hw Hd Hf.
  - discriminate Hk.
  - destruct Hass as (chunk & m & ops' & msgs' & -> & -> & Hout & Hrest).
    destruct k as [|k].
    + injection Hk as ->. rewrite Nat.add_0_r in *.
      destruct Hout as [(img & _ & -> & _) | [(img & _ & _ & -> & _) | (e & Hskip & _)]].
      * exists img. left. reflexivity.
      * exists img. left. reflexivity.
      * exfalso. destruct Hskip as [[Hrej _] | [_ [Hwr | [Hov | Hcv]]]].
        -- congruence.
        -- destruct Hwr as (_ & s & o & Hwr). exact (Hw s o Hwr).
        -- exact (Hf e Hov).
        -- destruct Hcv as (img & _ & _ & s & Hcv). rewrite Hd in Hcv. discriminate Hcv.
    + rewrite Nat.add_succ_r in *.
      destruct (IH (S i) ops' msgs' Hrest k text Hk Hacc Hw Hd Hf) as (img & Hin).
      exists img. apply List.in_or_app. right. exact Hin.
Qed.

End AssembledFacts.

(** C7: a document that the assembler has saved holds, item after item,
    what the specification describes: the image of item [i] in a box of 250
    by 80 at [x = 72 + col * 270], [y = page_top - 72 - (row + 1) * 100] with
    [row] and [col] taken from [i mod items_per_page] and [items_per_row]
    (followed by a page break when the page is full and items remain), and
    nothing for an item only when the barcode class, the writer, the canvas
    or the conversion of its row to a float failed on it, which is printed.
    So every image of the document is at the place of its item, and every
    item that is accepted is in the document at its place, unless the writer
    or the canvas failed on it. *)
Theorem combined_layout_as_specified (U : Unicode) (W : World) (settings : dict)
    (data : list pystr) (barcode_type output_dir prefix : pystr) (st st' : State) :
  Frame.generate_combined_pdf settings data barcode_type output_dir prefix st = (Ok true, st') ->
  exists cls ops msgs,
    Frame.barcode_types !! barcode_type = Some cls
    /\ documents st' !! path_join output_dir (prefix ++ str "combined_barcodes.pdf") = Some ops
    /\ console st' = console st ++ msgs
    /\ assembled (fst A4) (snd A4) cls (List.length data) 0 data ops msgs
    /\ (forall image x y w h,
          In (DrawImage image x y w h) ops ->
          exists i text,
            data !! i = Some text
            /\ x = PInt (spec_x (fst A4) (snd A4) i)
            /\ y = PFloat (spec_y (fst A4) (snd A4) i)
            /\ w = 250%Z /\ h = 80%Z)
    /\ (forall i text,
          data !! i = Some text ->
          accepts cls text = true ->
          (forall s options,
             writer_save s {| code_class := cls; code_text := text; code_writer := ImageWriter |}
               (str "temp_barcode_" ++ fmt_d i) options <> None) ->
          (forall s image, canvas_draw s image = true) ->
          (forall e, float_of_int ((spec_row (fst A4) (snd A4) i + 1) * (80 + 20)) <> Raise e) ->
          exists image,
            In (DrawImage image (PInt (spec_x (fst A4) (snd A4) i))
                  (PFloat (spec_y (fst A4) (snd A4) i)) 250 80) ops).
Proof.
  intros H. apply combined_true in H as (cls & ops & msgs & Hcls & Hdoc & Hcon & Hass).
  exists cls, ops, msgs.
  split; [exact Hcls|]. split; [exact Hdoc|]. split; [exact Hcon|]. split; [exact Hass|].
  split.
  - intros image x y w h Hin.
    exact (assembled_draws _ _ _ _ _ _ _ _ Hass _ _ _ _ _ Hin).
  - intros i text Hi Hacc Hw Hd Hf.
    exact (assembled_places _ _ _ _ _ _ _ _ Hass i text Hi Hacc Hw Hd Hf).
Qed.

Lemma combined_layout_as_specified_witness :
  exists cls ops msgs,
    Frame.barcode_types !! str "Code128" = Some cls
    /\ documents
         (snd (Frame.generate_combined_pdf (W := appending) first_settings eight_items
                 (str "Code128") (str "out") (str "x_") blank))
       !! path_join (str "out") (str "x_" ++ str "combined_barcodes.pdf") = Some ops
    /\ console
         (snd (Frame.generate_combined_pdf (W := appending) first_settings eight_items
                 (str "Code128") (str "out") (str "x_") blank))
       = console blank ++ msgs
    /\ assembled (W := appending) (fst a4_page) (snd a4_page) cls
         (List.length eight_items) 0 eight_items ops msgs
    /\ (forall image x y w h,
          In (DrawImage image x y w h) ops ->
          exists i text,
            eight_items !! i = Some text
            /\ x = PInt (spec_x (fst a4_page) (snd a4_page) i)
            /\ y = PFloat (spec_y (fst a4_page) (snd a4_page) i)
            /\ w = 250%Z /\ h = 80%Z)
    /\ (forall i text,
          eight_items !! i = Some text ->
          accepts (World := appending) cls text = true ->
          (forall s options,
             writer_save (World := appending) s
               {| code_class := cls; code_text := text; code_writer := ImageWriter |}
               (str "temp_barcode_" ++ fmt_d i) options <> None) ->
          (forall s image, canvas_draw (World := appending) s image = true) ->
          (forall e, float_of_int ((spec_row (fst a4_page) (snd a4_page) i + 1) * (80 + 20))
                     <> Raise e) ->
          exists image,
            In (DrawImage image (PInt (spec_x (fst a4_page) (snd a4_page) i))
                  (PFloat (spec_y (fst a4_page) (snd a4_page) i)) 250 80) ops).
Proof.
  apply (combined_layout_as_specified ascii_only appending first_settings eight_items
           (str "Code128") (str "out") (str "x_") blank).
  vm_compute. reflexivity.
Defined.

(** Where nothing fails, a document without the image of an item is not
    the document of that item, whatever is printed. *)
Example accepted_item_not_left_out (msgs : list message) :
  ~ assembled (W := appending) (fst a4_page) (snd a4_page) Code128 1 0 [str "A1"] [] msgs.
Proof.
  intros (chunk & m & ops' & msgs' & Hops & _ & Hout & _).
  destruct Hout as [(img & _ & -> & _) | [(img & _ & _ & -> & _) | (e & Hskip & _)]];
    [discriminate Hops | discriminate Hops |].
  destruct Hskip as [[Hrej _] | [_ [Hwr | [Hov | Hcv]]]].
  - discriminate Hrej.
  - destruct Hwr as (_ & s & o & Hwr). discriminate Hwr.
  - vm_compute in Hov. discriminate Hov.
  - destruct Hcv as (img & _ & _ & s & Hcv). discriminate Hcv.
Qed.

(** On an A4 page there is one item per row and six rows per page. *)
Example a4_grid :
  spec_items_per_row (fst a4_page) = 1%Z /\ spec_items_per_column (snd a4_page) = 6%Z.
Proof. split; vm_compute; reflexivity. Qed.

(** Eight items on A4 pages: six on the first page, two on the second. *)
Example eight_items_document :
  documents
    (snd (Frame.generate_combined_pdf (W := obliging) first_settings eight_items
            (str "Code128") (str "out") (str "x_") blank))
  !! str "out/x_combined_barcodes.pdf"
  = Some [ a4_draw "temp_barcode_0" 0; a4_draw "temp_barcode_1" 1;
           a4_draw "temp_barcode_2" 2; a4_draw "temp_barcode_3" 3;
           a4_draw "temp_barcode_4" 4; a4_draw "temp_barcode_5" 5; ShowPage;
           a4_draw "temp_barcode_6" 0; a4_draw "temp_barcode_7" 1 ].
Proof. vm_compute. reflexivity. Qed.



(** In that run the second item is rejected: one line is printed, the
    document holds the first and the third item, the report counts three. *)
Example rejected_item_counted_as_success :
  let run := Frame.on_generate_batch (U := ascii_only) (W := choosy) first_settings
               three_items (str "Code128") (str "PDF (Combined)") (str "out") (str "x_")
               blank in
  fst run = Ok (Some {| Frame.successful := 3; Frame.failed_items := [] |})
  /\ console (snd run) = [ItemError (str "B2") (BarcodeError Code128 (str "B2"))]
  /\ documents (snd run) !! str "out/x_combined_barcodes.pdf"
     = Some [a4_draw "temp_barcode_0" 0; a4_draw "temp_barcode_2" 2].
Proof. vm_compute. repeat split; reflexivity. Qed.

(** * Further properties of the code *)

(** ** Stripping and sanitising *)

Section StripFacts.
Context {U : Unicode}.

Lemma rstrip_fixed s :
  s = [] \/ (exists r c, s = r ++ [c] /\ isspace c = false) -> rstrip s = s.
Proof.
  intros [->|(r & c & -> & Hc)]; [reflexivity|].
  assert (H : rstrip [c] = [c]) by (simpl; rewrite Hc; reflexivity).
  rewrite rstrip_app_nonempty; rewrite H; [reflexivity | discriminate].
Qed.

Lemma rstrip_idempotent s : rstrip (rstrip s) = rstrip s.
Proof.
  apply rstrip_fixed. destruct (rstrip_spec s) as (_ & _ & _ & H). exact H.
Qed.

Lemma rstrip_length s : (List.length (rstrip s) <= List.length s)%nat.
Proof.
  destruct (rstrip_spec s) as (t & Heq & _). rewrite Heq at 2.
  rewrite List.length_app. lia.
Qed.

Lemma lstrip_head s :
  lstrip s = [] \/ exists c r, lstrip s = c :: r /\ isspace c = false.
Proof.
  induction s as [|c s IH]; [left; reflexivity|].
  simpl. destruct (isspace c) eqn:Hc; [exact IH|].
  right. exists c, s. split; [reflexivity | exact Hc].
Qed.

Lemma lstrip_fixed c r : isspace c = false -> lstrip (c :: r) = c :: r.
Proof. intros Hc. simpl. rewrite Hc. reflexivity. Qed.

(** What [strip] returns is empty or begins and ends with a character that
    is not whitespace. *)
Lemma strip_ends s :
  strip s = []
  \/ (exists c r, strip s = c :: r /\ isspace c = false)
     /\ (exists r c, strip s = r ++ [c] /\ isspace c = false).
Proof.
  unfold strip. destruct (lstrip_head s) as [->|(c & r & -> & Hc)]; [left; reflexivity|].
  right. split.
  - rewrite (rstrip_keeps_nonspace c r Hc). exists c, (rstrip r). split; [reflexivity | exact Hc].
  - destruct (rstrip_spec (c :: r)) as (_ & _ & _ & [H|H]); [|exact H].
    rewrite (rstrip_keeps_nonspace c r Hc) in H. discriminate.
Qed.

Lemma strip_idempotent s : strip (strip s) = strip s.
Proof.
  destruct (strip_ends s) as [->|[(c & r & Hhead & Hc) Hlast]]; [reflexivity|].
  unfold strip at 1. rewrite Hhead, (lstrip_fixed c r Hc), <- Hhead.
  apply rstrip_fixed. right. exact Hlast.
Qed.

Lemma filter_keeps_fixed s :
  Forall (fun c => keeps c = true) s -> List.filter keeps s = s.
Proof.
  induction 1 as [|c s Hc _ IH]; [reflexivity|]. simpl. rewrite Hc, IH. reflexivity.
Qed.

Lemma sanitize_kept s c : In c (sanitize s) -> keeps c = true.
Proof.
  unfold sanitize. intros Hc.
  destruct (rstrip_spec (List.filter keeps s)) as (t & Heq & _).
  assert (Hin : In c (List.filter keeps s))
    by (rewrite Heq; apply List.in_or_app; left; exact Hc).
  apply List.filter_In in Hin. tauto.
Qed.

End StripFacts.

(** X1: sanitising a sanitised name changes nothing. *)
Theorem sanitize_idempotent (U : Unicode) (s : pystr) :
  sanitize (sanitize s) = sanitize s.
Proof.
  unfold sanitize at 1. rewrite filter_keeps_fixed.
  - unfold sanitize. apply rstrip_idempotent.
  - apply List.Forall_forall. intros c Hc.
    exact (sanitize_kept s c Hc).
Qed.

Section NameLength.
Context {U : Unicode}.

Lemma filter_length (f : N -> bool) s : (List.length (List.filter f s) <= List.length s)%nat.
Proof. induction s as [|c s IH]; simpl; [lia|]. destruct (f c); simpl; lia. Qed.

Lemma fmt_04d_length n :
  List.length (fmt_04d n) = Nat.max 4 (List.length (fmt_d n)).
Proof. unfold fmt_04d. rewrite List.length_app, List.repeat_length. lia. Qed.

End NameLength.

(** X2: a batch file name is never empty and is bounded: it has the
    digits of the index (four at least), the underscore, and at most the
    length of the prefix plus twenty more characters. *)
Theorem batch_filename_length (U : Unicode) (prefix : pystr) (i : nat) (text : pystr) :
  (5 <= List.length (Frame.batch_filename prefix i text)
   <= List.length prefix + List.length (fmt_04d (i + 1)) + 21)%nat.
Proof.
  rewrite batch_filename_shape, !List.length_app. cbn [List.length].
  pose proof (filter_length keeps prefix) as Hp.
  pose proof (rstrip_length (List.filter keeps (slice_to 20 text))) as Hr.
  pose proof (filter_length keeps (slice_to 20 text)) as Hf.
  assert (Ht : (List.length (slice_to 20 text) <= 20)%nat)
    by (unfold slice_to; rewrite List.length_firstn; lia).
  pose proof (fmt_04d_length (i + 1)) as Hd. lia.
Qed.

(** ** The input of a batch *)

Section InputFacts.
Context {U : Unicode}.

Lemma nonempty_true s : Frame.nonempty s = true <-> s <> [].
Proof. destruct s; simpl; split; congruence. Qed.

End InputFacts.

(** X3: the records of a text file are exactly the stripped forms of its
    lines that are not blank: none is empty, none begins or ends with
    whitespace. *)
Theorem read_text_lines_records (U : Unicode) (lines : list pystr) (record : pystr) :
  In record (Frame.read_text_lines lines)
  <-> record <> [] /\ strip record = record
      /\ exists line, In line lines /\ record = strip line.
Proof.
  unfold Frame.read_text_lines. rewrite List.in_map_iff. split.
  - intros (line & <- & Hin). apply List.filter_In in Hin as [Hin Hne].
    apply nonempty_true in Hne. split; [exact Hne|]. split; [apply strip_idempotent|].
    exists line. split; [exact Hin | reflexivity].
  - intros (Hne & _ & line & Hin & ->). exists line. split; [reflexivity|].
    apply List.filter_In. split; [exact Hin | apply nonempty_true; exact Hne].
Qed.

(** X4: the records of a CSV column are exactly the stripped forms of the
    cells of that column that are not blank; a row too short to have the
    column gives nothing. *)
Theorem read_csv_column_records (U : Unicode) (column_index : nat)
    (rows : list (list pystr)) (record : pystr) :
  In record (Frame.read_csv_column column_index rows)
  <-> record <> [] /\ strip record = record
      /\ exists row cell,
           In row rows /\ row !! column_index = Some cell /\ record = strip cell.
Proof.
  unfold Frame.read_csv_column. rewrite List.in_flat_map. split.
  - intros (row & Hin & Hrec). destruct (row !! column_index) as [cell|] eqn:Hcell;
      [|destruct Hrec].
    destruct (Frame.nonempty (strip cell)) eqn:Hne; [|destruct Hrec].
    destruct Hrec as [<-|[]]. apply nonempty_true in Hne.
    split; [exact Hne|]. split; [apply strip_idempotent|].
    exists row, cell. repeat split; assumption.
  - intros (Hne & _ & row & cell & Hin & Hcell & ->). exists row. split; [exact Hin|].
    rewrite Hcell. apply nonempty_true in Hne. rewrite Hne. left. reflexivity.
Qed.

(** The CSV scenario: the header is skipped and the blank cell gives no record. *)
Example csv_sample_records :
  Frame.read_csv_column (U := ascii_only) 1 (List.tl csv_sample) = [str "1"; str "2"].
Proof. reflexivity. Qed.

Section BatchEventFacts.
Context {U : Unicode} {W : World}.
Variable settings : dict.

Lemma read_text_lines_blank lines :
  Forall (fun line => strip line = []) lines -> Frame.read_text_lines lines = [].
Proof.
  unfold Frame.read_text_lines. induction 1 as [|line lines Hl _ IH]; [reflexivity|].
  simpl. rewrite Hl. simpl. exact IH.
Qed.

Lemma on_generate_batch_nil barcode_type output_format output_dir prefix st :
  Frame.on_generate_batch settings [] barcode_type output_format output_dir prefix st
  = (Ok None, st).
Proof. reflexivity. Qed.

End BatchEventFacts.

(** X5: a batch that cannot be set up reports nothing and leaves the
    machine as it was: no file chosen, no CSV column selected, a CSV file
    without a header row, or a text file with blank lines only. *)
Theorem batch_setup_errors (U : Unicode) (W : World) (settings : dict)
    (file_path : pystr) (source : Frame.batch_source) (column_index : option nat)
    (barcode_type output_format output_dir prefix : pystr) (st : State) :
  file_path = []
  \/ (exists rows, source = Frame.CsvFile rows /\ column_index = None)
  \/ source = Frame.CsvFile []
  \/ (exists lines, source = Frame.TextFile lines
                   /\ Forall (fun line => strip line = []) lines) ->
  Frame.on_generate_batch_event settings file_path source column_index
    barcode_type output_format output_dir prefix st
  = (Ok None, st).
Proof.
  unfold Frame.on_generate_batch_event.
  intros [->|[(rows & -> & ->)|[->|(lines & -> & Hblank)]]].
  - reflexivity.
  - destruct file_path; reflexivity.
  - destruct file_path; [reflexivity|]. destruct column_index; reflexivity.
  - destruct file_path; [reflexivity|].
    rewrite (read_text_lines_blank lines Hblank). reflexivity.
Qed.

Lemma batch_setup_errors_witness :
  Frame.on_generate_batch_event (U := ascii_only) (W := obliging) first_settings
    (str "in.txt") (Frame.TextFile [str "  "; str ""]) None
    (str "Code128") (str "PNG") (str "out") (str "x_") blank
  = (Ok None, blank).
Proof.
  apply (batch_setup_errors ascii_only obliging).
  right; right; right. eexists. split; [reflexivity|].
  repeat constructor.
Defined.

(** ** Output formats *)

Section FormatFacts.
Context {U : Unicode} {W : World}.
Variable settings : dict.

Lemma frame_format_fallback text barcode_type output_format output_dir filename st :
  output_format <> str "SVG" ->
  output_format <> str "PDF" \/ HAS_PDF_SUPPORT = false ->
  Frame.generate_barcode settings text barcode_type output_format output_dir filename st
  = Frame.generate_barcode settings text barcode_type (str "PNG") output_dir filename st.
Proof.
  intros Hsvg Hpdf. unfold Frame.generate_barcode.
  rewrite (bool_decide_eq_false_2 _ Hsvg).
  assert (Hf : bool_decide (output_format = str "PDF") && HAS_PDF_SUPPORT = false).
  { destruct Hpdf as [H| ->]; [rewrite (bool_decide_eq_false_2 _ H); reflexivity|].
    apply andb_false_r. }
  rewrite Hf.
  assert (Hg : bool_decide (str "PNG" = str "PDF") && HAS_PDF_SUPPORT = false)
    by reflexivity.
  rewrite Hg. reflexivity.
Qed.

(** The generator of the window returns [True] or raises. *)
Lemma frame_generate_true text barcode_type output_format output_dir filename st b st' :
  Frame.generate_barcode settings text barcode_type output_format output_dir filename st
  = (Ok b, st') -> b = true.
Proof.
  unfold Frame.generate_barcode, try_except. unfold bind at 1.
  destruct (subscript Frame.barcode_types barcode_type st) as [[cls|e] s0]; [|discriminate].
  unfold bind at 1.
  match goal with
  | |- context [let (_, _) := ?m s0 in _] => destruct (m s0) as [[name|e] s1]
  end; [|discriminate].
  unfold bind at 1.
  destruct (make_options settings f100_0 f16_5 s1) as [[options|e] s2]; [|discriminate].
  destruct (bool_decide (output_format = str "SVG")).
  - unfold bind, ret. destruct (construct cls text SVGWriter s2) as [[code|e] s3]; [|discriminate].
    destruct (save code _ options s3) as [[p|e] s4]; [|discriminate]. congruence.
  - destruct (bool_decide (output_format = str "PDF") && HAS_PDF_SUPPORT).
    + destruct (Frame.generate_pdf_barcode settings text barcode_type output_dir name s2)
        as [[b'|e] s3] eqn:Epdf; [|discriminate].
      apply frame_pdf_returns in Epdf as (_ & _ & _ & _ & _ & _ & _ & -> & _).
      congruence.
    + unfold bind, ret.
      destruct (construct cls text ImageWriter s2) as [[code|e] s3]; [|discriminate].
      destruct (save code _ options s3) as [[p|e] s4]; [|discriminate]. congruence.
Qed.

End FormatFacts.

(** X6: the generator of the window compares the format with ['SVG'] and
    ['PDF'] exactly; any other string, and ['PDF'] without the document
    library, is served as PNG. *)
Theorem frame_unknown_format_is_png (U : Unicode) (W : World) (settings : dict)
    (text barcode_type output_format output_dir : pystr) (filename : option pystr)
    (st : State) :
  output_format <> str "SVG" ->
  output_format <> str "PDF" \/ HAS_PDF_SUPPORT = false ->
  Frame.generate_barcode settings text barcode_type output_format output_dir filename st
  = Frame.generate_barcode settings text barcode_type (str "PNG") output_dir filename st.
Proof. apply frame_format_fallback. Qed.

Lemma frame_unknown_format_is_png_witness :
  Frame.generate_barcode (U := ascii_only) (W := obliging) first_settings
    (str "A1") (str "Code128") (str "svg") (str "out") (Some (str "f")) blank
  = (Ok true, set_files (fun _ => {[ str "out/f.png" ]}) blank).
Proof.
  rewrite (frame_unknown_format_is_png ascii_only obliging);
    [vm_compute; reflexivity | discriminate | left; discriminate].
Defined.

(** ** The loop over individual files *)

Section IndividualLoop.
Context {U : Unicode} {W : World}.
Variable settings : dict.

Lemma for_enumerate_ext {A B} (f g : nat -> A -> B -> M B) (l : list A) :
  (forall i x acc st, f i x acc st = g i x acc st) ->
  forall i acc st, for_enumerate f i l acc st = for_enumerate g i l acc st.
Proof.
  intros Hfg. induction l as [|x l IH]; intros i acc st; [reflexivity|].
  simpl. unfold bind. rewrite Hfg. destruct (g i x acc st) as [[b|e] s]; [apply IH | reflexivity].
Qed.

(** What the loop leaves: the failures in the order of the input, each
    with the error of its call; the other items counted; the gauge on the
    last item. *)
Lemma individual_loop_report barcode_type output_format output_dir prefix data :
  forall i acc st,
  exists fs st',
    for_enumerate (Frame.generate_item settings barcode_type output_format output_dir prefix)
      i data acc st
    = (Ok {| Frame.successful := Frame.successful acc + (List.length data - List.length fs);
             Frame.failed_items := Frame.failed_items acc ++ fs |}, st')
    /\ individual_run settings barcode_type
         (if bool_decide (output_format = str "PDF (Individual)")
          then str "PDF" else output_format)
         output_dir prefix i data st fs st'
    /\ sublist (List.map failed_text fs) data
    /\ Forall (fun f => exists text e, f = Frame.FailedWith text e) fs
    /\ (List.length fs <= List.length data)%nat
    /\ gauge st' = match data with
                   | [] => gauge st
                   | _ => (i + List.length data)%nat
                   end.
Proof.
  induction data as [|text data IH]; intros i acc st.
  - exists [], st. rewrite List.app_nil_r, Nat.add_0_r. destruct acc.
    split; [reflexivity|]. split; [constructor|].
    repeat split; try reflexivity; try constructor.
  - cbn [for_enumerate]. unfold bind. rewrite generate_item_unfold.
    match goal with
    | |- context [Frame.generate_barcode ?a ?b ?c ?d ?e ?f ?g] =>
        destruct (Frame.generate_barcode a b c d e f g) as [[b'|e'] s] eqn:Egen
    end.
    + pose proof Egen as Ecall. apply frame_generate_true in Egen as ->.
      match goal with
      | |- context [for_enumerate _ (S i) data ?a ?s] =>
          destruct (IH (S i) a s) as (fs & st' & -> & Hrun & Hsub & Hall & Hlen & Hg)
      end.
      exists fs, st'. cbn [Frame.successful Frame.failed_items List.length] in *.
      split; [do 3 f_equal; lia|].
      split; [eapply run_generated; [exact Ecall | exact Hrun]|].
      split; [apply sublist_cons; exact Hsub|].
      split; [exact Hall|]. split; [lia|].
      rewrite Hg. destruct data; simpl; lia.
    + match goal with
      | |- context [for_enumerate _ (S i) data ?a ?s] =>
          destruct (IH (S i) a s) as (fs & st' & -> & Hrun & Hsub & Hall & Hlen & Hg)
      end.
      exists (Frame.FailedWith text e' :: fs), st'.
      cbn [Frame.successful Frame.failed_items List.length List.map failed_text] in *.
      split; [rewrite <- List.app_assoc; do 3 f_equal; lia|].
      split; [eapply run_raised; [exact Egen | exact Hrun]|].
      split; [apply sublist_skip; exact Hsub|].
      split; [constructor; [eexists _, _; reflexivity | exact Hall]|].
      split; [lia|].
      rewrite Hg. destruct data; simpl; lia.
Qed.

End IndividualLoop.

(** X7: a run over individual files calls the generator on every item in
    the order of the input, with the file name derived for the item and in
    the state that the calls before it have left, and sets the gauge after
    each call.  It reports as failed exactly the items on which the call
    raised, in that order and each with the error of its call (the branch for
    a false return value is never taken), counts every other item as a
    success, and leaves the gauge on the number of items. *)
Theorem individual_run_report (U : Unicode) (W : World) (settings : dict)
    (data : list pystr) (barcode_type output_format output_dir prefix : pystr)
    (st : State) :
  data <> [] ->
  bool_decide (output_format = str "PDF (Combined)") && HAS_PDF_SUPPORT = false ->
  exists fs st',
    Frame.on_generate_batch settings data barcode_type output_format output_dir prefix st
    = (Ok (Some {| Frame.successful := List.length data - List.length fs;
                   Frame.failed_items := fs |}), st')
    /\ individual_run settings barcode_type
         (if bool_decide (output_format = str "PDF (Individual)")
          then str "PDF" else output_format)
         output_dir prefix 0 data (set_gauge 0 st) fs st'
    /\ sublist (List.map failed_text fs) data
    /\ Forall (fun f => exists text e, f = Frame.FailedWith text e) fs
    /\ gauge st' = List.length data.
Proof.
  intros Hdata Hmode. unfold Frame.on_generate_batch.
  destruct data as [|text data]; [congruence|].
  unfold try_except, bind at 1. unfold modify at 1. rewrite Hmode. unfold bind.
  destruct (individual_loop_report settings barcode_type output_format output_dir prefix
              (text :: data) 0 {| Frame.successful := 0; Frame.failed_items := [] |}
              (set_gauge 0 st)) as (fs & st' & -> & Hrun & Hsub & Hall & _ & Hg).
  exists fs, st'. repeat split; assumption.
Qed.

Lemma individual_run_report_witness :
  exists fs st',
    Frame.on_generate_batch (U := ascii_only) (W := choosy) first_settings three_items
      (str "Code128") (str "PNG") (str "out") (str "x_") blank
    = (Ok (Some {| Frame.successful := List.length three_items - List.length fs;
                   Frame.failed_items := fs |}), st')
    /\ individual_run (U := ascii_only) (W := choosy) first_settings (str "Code128")
         (if bool_decide (str "PNG" = str "PDF (Individual)") then str "PDF" else str "PNG")
         (str "out") (str "x_") 0 three_items (set_gauge 0 blank) fs st'
    /\ sublist (List.map failed_text fs) three_items
    /\ Forall (fun f => exists text e, f = Frame.FailedWith text e) fs
    /\ gauge st' = List.length three_items.
Proof.
  apply (individual_run_report ascii_only choosy first_settings three_items
           (str "Code128") (str "PNG") (str "out") (str "x_") blank).
  - discriminate.
  - reflexivity.
Defined.

(** In that run the second item fails with the error of the barcode class. *)
Example individual_run_sample :
  fst (Frame.on_generate_batch (U := ascii_only) (W := choosy) first_settings three_items
         (str "Code128") (str "PNG") (str "out") (str "x_") blank)
  = Ok (Some {| Frame.successful := 2;
                Frame.failed_items :=
                  [Frame.FailedWith (str "B2") (BarcodeError Code128 (str "B2"))] |}).
Proof. vm_compute. reflexivity. Qed.

(** X8: without the document library a batch asked for PDF, one file per
    item or combined, runs as the batch asked for PNG. *)
Theorem batch_pdf_without_library_is_png (U : Unicode) (W : World) (settings : dict)
    (data : list pystr) (barcode_type output_format output_dir prefix : pystr)
    (st : State) :
  HAS_PDF_SUPPORT = false ->
  output_format = str "PDF (Individual)" \/ output_format = str "PDF (Combined)" ->
  Frame.on_generate_batch settings data barcode_type output_format output_dir prefix st
  = Frame.on_generate_batch settings data barcode_type (str "PNG") output_dir prefix st.
Proof.
  intros Hpdf Hfmt. unfold Frame.on_generate_batch. destruct data as [|text data]; [reflexivity|].
  unfold try_except, bind at 1 3. unfold modify. rewrite Hpdf, !andb_false_r.
  unfold bind.
  rewrite (for_enumerate_ext
             (Frame.generate_item settings barcode_type output_format output_dir prefix)
             (Frame.generate_item settings barcode_type (str "PNG") output_dir prefix));
    [reflexivity|].
  intros i x acc s. rewrite !generate_item_unfold.
  change (bool_decide (str "PNG" = str "PDF (Individual)")) with false. cbv iota.
  destruct Hfmt as [-> | ->].
  - change (bool_decide (str "PDF (Individual)" = str "PDF (Individual)")) with true.
    cbv iota. rewrite (frame_format_fallback settings x barcode_type (str "PDF"));
      [reflexivity | discriminate | right; exact Hpdf].
  - change (bool_decide (str "PDF (Combined)" = str "PDF (Individual)")) with false.
    cbv iota. rewrite (frame_format_fallback settings x barcode_type (str "PDF (Combined)"));
      [reflexivity | discriminate | left; discriminate].
Qed.

Lemma batch_pdf_without_library_is_png_witness :
  exists st',
    Frame.on_generate_batch (U := ascii_only) (W := without_pdf) first_settings three_items
      (str "Code128") (str "PDF (Combined)") (str "out") (str "x_") blank
    = (Ok (Some {| Frame.successful := 3; Frame.failed_items := [] |}), st')
    /\ files st' = {[ str "out/x_0001_A1.png"; str "out/x_0002_B2.png";
                      str "out/x_0003_C3.png" ]}.
Proof.
  rewrite (batch_pdf_without_library_is_png ascii_only without_pdf);
    [|reflexivity | right; reflexivity].
  eexists. split; vm_compute; reflexivity.
Defined.

(** ** Image files: one file or none *)

Section ImageFacts.
Context {U : Unicode} {W : World}.
Variable settings : dict.

Lemma make_options_result a b :
  exists r, forall s, make_options settings a b s = (r, s) /\
    (forall e, r = Raise e -> exists key, In key generator_fields
                                          /\ settings !! key = None /\ e = KeyError key).
Proof.
  unfold make_options, bind, subscript, ret, raise, generator_fields.
  destruct (settings !! str "barcode_width") eqn:E1;
    [|eexists; intros s; split; [reflexivity|]; intros e [= <-];
      eexists; split; [|split; [exact E1 | reflexivity]]; simpl; tauto].
  destruct (settings !! str "barcode_height") eqn:E2;
    [|eexists; intros s; split; [reflexivity|]; intros e [= <-];
      eexists; split; [|split; [exact E2 | reflexivity]]; simpl; tauto].
  destruct (settings !! str "font_size") eqn:E3;
    [|eexists; intros s; split; [reflexivity|]; intros e [= <-];
      eexists; split; [|split; [exact E3 | reflexivity]]; simpl; tauto].
  destruct (settings !! str "include_text") eqn:E4;
    [|eexists; intros s; split; [reflexivity|]; intros e [= <-];
      eexists; split; [|split; [exact E4 | reflexivity]]; simpl; tauto].
  eexists. intros s. split; [reflexivity|]. intros e. discriminate.
Qed.

Lemma frame_image_cases text barcode_type output_format output_dir filename st r st' :
  bool_decide (output_format = str "PDF") && HAS_PDF_SUPPORT = false ->
  Frame.generate_barcode settings text barcode_type output_format output_dir filename st
  = (r, st') ->
  (r = Ok true
   /\ exists code options written,
        writer_save st code
          (path_join output_dir
             (match filename with
              | Some f => f
              | None => str "barcode_" ++ sanitize text ++ str "_" ++ timestamp st
              end ++ (if bool_decide (output_format = str "SVG")
                      then str ".svg" else str ".png")))
          options = Some written
        /\ code_text code = text
        /\ st' = set_files (fun fs => {[ written ]} ∪ fs) st)
  \/ (exists e, r = Raise e /\ st' = st).
Proof.
  intros Hpdf. unfold Frame.generate_barcode. rewrite Hpdf.
  unfold make_options. unfold_calls. unfold_monad. intros H.
  destruct filename as [f|]; simpl in H;
    repeat split_stuck H; injection H as <- <-;
    try (right; eexists; split; reflexivity);
    left; (split; [reflexivity|]); eexists _, _, _;
    (split; [eassumption|]); split; reflexivity.
Qed.

Lemma logic_image_cases text barcode_type output_format output_dir filename st r st' :
  upper output_format <> str "PDF" ->
  Logic.generate_barcode settings text barcode_type output_format output_dir filename st
  = (r, st') ->
  (exists code options written,
     r = Ok (path_join output_dir
               (match filename with
                | Some f => f
                | None => str "barcode_" ++ sanitize text ++ str "_" ++ timestamp st
                end ++ (if bool_decide (upper output_format = str "SVG")
                        then str ".svg" else str ".png")))
     /\ writer_save st code
          (path_join output_dir
             (match filename with
              | Some f => f
              | None => str "barcode_" ++ sanitize text ++ str "_" ++ timestamp st
              end ++ (if bool_decide (upper output_format = str "SVG")
                      then str ".svg" else str ".png")))
          options = Some written
     /\ code_text code = text
     /\ st' = set_files (fun fs => {[ written ]} ∪ fs) st)
  \/ (exists e, r = Raise e /\ st' = st).
Proof.
  intros Hpdf. unfold Logic.generate_barcode.
  rewrite (bool_decide_eq_false_2 _ Hpdf).
  unfold make_options. unfold_calls. unfold_monad. intros H.
  destruct filename as [f|]; simpl in H;
    repeat split_stuck H; injection H as <- <-;
    try (right; eexists; split; reflexivity);
    left; eexists _, _, _; (split; [reflexivity|]);
    (split; [eassumption|]); split; reflexivity.
Qed.

End ImageFacts.

(** X9: for a format other than a served PDF, the generator of the
    window either returns [True] having asked the writer for exactly one
    file, named from the given file name (or from ["barcode_"], the
    sanitised text and the time stamp) with [".svg"] or [".png"], or raises
    and leaves the machine as it was. *)
Theorem frame_image_one_file_or_none (U : Unicode) (W : World) (settings : dict)
    (text barcode_type output_format output_dir : pystr) (filename : option pystr)
    (st st' : State) (r : result bool) :
  bool_decide (output_format = str "PDF") && HAS_PDF_SUPPORT = false ->
  Frame.generate_barcode settings text barcode_type output_format output_dir filename st
  = (r, st') ->
  (r = Ok true
   /\ exists code options written,
        writer_save st code
          (path_join output_dir
             (match filename with
              | Some f => f
              | None => str "barcode_" ++ sanitize text ++ str "_" ++ timestamp st
              end ++ (if bool_decide (output_format = str "SVG")
                      then str ".svg" else str ".png")))
          options = Some written
        /\ code_text code = text
        /\ st' = set_files (fun fs => {[ written ]} ∪ fs) st)
  \/ (exists e, r = Raise e /\ st' = st).
Proof. apply frame_image_cases. Qed.

Lemma frame_image_one_file_or_none_witness :
  (fst (Frame.generate_barcode (U := ascii_only) (W := obliging) first_settings
          (str "a/b") (str "Code128") (str "SVG") (str "out") None blank) = Ok true
   /\ exists code options written,
        writer_save (World := obliging) blank code
          (path_join (str "out")
             ((str "barcode_" ++ sanitize (U := ascii_only) (str "a/b") ++ str "_"
               ++ timestamp (World := obliging) blank)
              ++ (if bool_decide (str "SVG" = str "SVG") then str ".svg" else str ".png")))
          options = Some written
        /\ code_text code = str "a/b"
        /\ snd (Frame.generate_barcode (U := ascii_only) (W := obliging) first_settings
                  (str "a/b") (str "Code128") (str "SVG") (str "out") None blank)
           = set_files (fun fs => {[ written ]} ∪ fs) blank)
  \/ (exists e,
        fst (Frame.generate_barcode (U := ascii_only) (W := obliging) first_settings
               (str "a/b") (str "Code128") (str "SVG") (str "out") None blank) = Raise e
        /\ snd (Frame.generate_barcode (U := ascii_only) (W := obliging) first_settings
                  (str "a/b") (str "Code128") (str "SVG") (str "out") None blank) = blank).
Proof.
  apply (frame_image_one_file_or_none ascii_only obliging first_settings (str "a/b")
           (str "Code128") (str "SVG") (str "out") None blank).
  - reflexivity.
  - apply surjective_pairing.
Defined.

(** The file of that call. *)
Example frame_default_name_sample :
  files (snd (Frame.generate_barcode (U := ascii_only) (W := obliging) first_settings
                (str "a/b") (str "Code128") (str "SVG") (str "out") None blank))
  = {[ str "out/barcode_ab_20250101_120000.svg" ]}.
Proof. vm_compute. reflexivity. Qed.

(** X10: for a format whose upper-case form is not ['PDF'], the
    stand-alone generator either returns the path
    [output_dir/filename.svg] (upper-case form ['SVG']) or
    [output_dir/filename.png] (anything else) having asked the writer for
    that one file, or raises and leaves the machine as it was. *)
Theorem logic_image_one_file_or_none (U : Unicode) (W : World) (settings : dict)
    (text barcode_type output_format output_dir : pystr) (filename : option pystr)
    (st st' : State) (r : result pystr) :
  upper output_format <> str "PDF" ->
  Logic.generate_barcode settings text barcode_type output_format output_dir filename st
  = (r, st') ->
  (exists code options written,
     r = Ok (path_join output_dir
               (match filename with
                | Some f => f
                | None => str "barcode_" ++ sanitize text ++ str "_" ++ timestamp st
                end ++ (if bool_decide (upper output_format = str "SVG")
                        then str ".svg" else str ".png")))
     /\ writer_save st code
          (path_join output_dir
             (match filename with
              | Some f => f
              | None => str "barcode_" ++ sanitize text ++ str "_" ++ timestamp st
              end ++ (if bool_decide (upper output_format = str "SVG")
                      then str ".svg" else str ".png")))
          options = Some written
     /\ code_text code = text
     /\ st' = set_files (fun fs => {[ written ]} ∪ fs) st)
  \/ (exists e, r = Raise e /\ st' = st).
Proof. apply logic_image_cases. Qed.

Lemma logic_image_one_file_or_none_witness :
  (exists code options written,
     fst (Logic.generate_barcode (U := ascii_only) (W := obliging) first_settings
            (str "A1") (str "Code128") (str "svg") (str "out") (Some (str "f")) blank)
     = Ok (path_join (str "out")
             (str "f" ++ (if bool_decide (upper (U := ascii_only) (str "svg") = str "SVG")
                          then str ".svg" else str ".png")))
     /\ writer_save (World := obliging) blank code
          (path_join (str "out")
             (str "f" ++ (if bool_decide (upper (U := ascii_only) (str "svg") = str "SVG")
                          then str ".svg" else str ".png")))
          options = Some written
     /\ code_text code = str "A1"
     /\ snd (Logic.generate_barcode (U := ascii_only) (W := obliging) first_settings
               (str "A1") (str "Code128") (str "svg") (str "out") (Some (str "f")) blank)
        = set_files (fun fs => {[ written ]} ∪ fs) blank)
  \/ (exists e,
        fst (Logic.generate_barcode (U := ascii_only) (W := obliging) first_settings
               (str "A1") (str "Code128") (str "svg") (str "out") (Some (str "f")) blank)
        = Raise e
        /\ snd (Logic.generate_barcode (U := ascii_only) (W := obliging) first_settings
                  (str "A1") (str "Code128") (str "svg") (str "out") (Some (str "f")) blank)
           = blank).
Proof.
  apply (logic_image_one_file_or_none ascii_only obliging first_settings (str "A1")
           (str "Code128") (str "svg") (str "out") (Some (str "f")) blank).
  - vm_compute. discriminate.
  - apply surjective_pairing.
Defined.

(** A lower-case format: the stand-alone generator writes an SVG file. *)
Example logic_lower_case_sample :
  Logic.generate_barcode (U := ascii_only) (W := obliging) first_settings
    (str "A1") (str "Code128") (str "svg") (str "out") (Some (str "f")) blank
  = (Ok (str "out/f.svg"), set_files (fun _ => {[ str "out/f.svg" ]}) blank).
Proof. vm_compute. reflexivity. Qed.

(** ** Settings that lack a field *)

Section MissingField.
Context {U : Unicode} {W : World}.
Variable settings : dict.


End MissingField.



(** With the font size only, the first missing field is the width. *)
Example font_only_sample :
  Logic.generate_barcode (U := ascii_only) (W := obliging)
    (Logic.init_settings (Some font_only))
    (str "A1") (str "Code128") (str "PNG") (str "out") None blank
  = (Raise (KeyError (str "barcode_width")), blank).
Proof. vm_compute. reflexivity. Qed.

(** ** The document of a single item *)

Section PdfDocument.
Context {U : Unicode} {W : World}.

Lemma frame_pdf_outcome settings text barcode_type output_dir filename st r st' :
  Frame.generate_pdf_barcode settings text barcode_type output_dir filename st = (r, st') ->
  (exists e, r = Raise e /\ st' = st)
  \/ exists code options temp,
       writer_save st code (str "temp_barcode") options = Some temp
       /\ code_text code = text
       /\ ((r = Ok true
            /\ documents st'
               = <[path_join output_dir (filename ++ str ".pdf")
                   := [DrawImage temp (PInt 72) (PInt 600) 300 100]]> (documents st)
            /\ files st'
               = ({[ path_join output_dir (filename ++ str ".pdf") ]}
                    ∪ ({[ temp ]} ∪ files st)) ∖ {[ temp ]})
           \/ (exists e, r = Raise e /\ temp ∈ files st'
                         /\ exists p, e = CanvasError p \/ e = OSError p)).
Proof.
  unfold Frame.generate_pdf_barcode, make_options. unfold_calls. unfold_monad. intros H.
  repeat split_stuck H;
    try match goal with
        | E : bool_decide _ = false |- _ =>
            apply bool_decide_eq_false in E; exfalso; apply E; set_solver
        end;
    injection H as <- <-;
    try (left; eexists; split; reflexivity);
    right; eexists _, _, _; (split; [eassumption|]); (split; [reflexivity|]);
    try (left; repeat split; reflexivity);
    right; eexists; (split; [reflexivity|]); (split; [simpl; set_solver|]);
    eexists; (left; reflexivity) || (right; reflexivity).
Qed.

Lemma logic_pdf_outcome cls text output_dir filename options st r st' :
  Logic.generate_pdf_barcode cls text output_dir filename options st = (r, st') ->
  (exists e, r = Raise e /\ st' = st)
  \/ exists temp,
       writer_save st {| code_class := cls; code_text := text; code_writer := ImageWriter |}
         (str "temp_barcode") options = Some temp
       /\ ((r = Ok (path_join output_dir (filename ++ str ".pdf"))
            /\ documents st'
               = <[path_join output_dir (filename ++ str ".pdf")
                   := [DrawImage temp (PInt 72) (PInt 600) 300 100]]> (documents st)
            /\ files st'
               = ({[ path_join output_dir (filename ++ str ".pdf") ]}
                    ∪ ({[ temp ]} ∪ files st)) ∖ {[ temp ]})
           \/ (exists e, r = Raise e /\ temp ∈ files st'
                         /\ exists p, e = CanvasError p \/ e = OSError p)).
Proof.
  unfold Logic.generate_pdf_barcode. unfold_calls. unfold_monad. intros H.
  repeat split_stuck H;
    try match goal with
        | E : bool_decide _ = false |- _ =>
            apply bool_decide_eq_false in E; exfalso; apply E; set_solver
        end;
    injection H as <- <-;
    try (left; eexists; split; reflexivity);
    right; eexists; (split; [eassumption || reflexivity|]);
    try (left; repeat split; reflexivity);
    right; eexists; (split; [reflexivity|]); (split; [simpl; set_solver|]);
    eexists; (left; reflexivity) || (right; reflexivity).
Qed.

End PdfDocument.

(** X12: when a document generation returns, the document saved under
    [output_dir/filename.pdf] holds exactly one image, the temporary image
    of the writer, at (72, 600) with width 300 and height 100; the files on
    disk are those of before with the document, less the temporary image. *)
Theorem pdf_document_content (U : Unicode) (W : World) :
  (forall settings text barcode_type output_dir filename st b st',
     Frame.generate_pdf_barcode settings text barcode_type output_dir filename st
     = (Ok b, st') ->
     exists temp,
       documents st' !! path_join output_dir (filename ++ str ".pdf")
       = Some [DrawImage temp (PInt 72) (PInt 600) 300 100]
       /\ files st'
          = ({[ path_join output_dir (filename ++ str ".pdf") ]} ∪ files st) ∖ {[ temp ]})
  /\ (forall cls text output_dir filename options st p st',
        Logic.generate_pdf_barcode cls text output_dir filename options st = (Ok p, st') ->
        exists temp,
          documents st' !! path_join output_dir (filename ++ str ".pdf")
          = Some [DrawImage temp (PInt 72) (PInt 600) 300 100]
          /\ files st'
             = ({[ path_join output_dir (filename ++ str ".pdf") ]} ∪ files st) ∖ {[ temp ]}).
Proof.
  split.
  - intros * H. apply frame_pdf_outcome in H
      as [(e & He & _)|(code & o & temp & _ & _ & [(_ & Hd & Hf)|(e & He & _)])];
      try discriminate.
    exists temp. rewrite Hd, Hf. split; [apply lookup_insert_eq|].
    apply set_eq. intros x.
    rewrite !elem_of_difference, !elem_of_union, !elem_of_singleton. tauto.
  - intros * H. apply logic_pdf_outcome in H
      as [(e & He & _)|(temp & _ & [(_ & Hd & Hf)|(e & He & _)])];
      try discriminate.
    exists temp. rewrite Hd, Hf. split; [apply lookup_insert_eq|].
    apply set_eq. intros x.
    rewrite !elem_of_difference, !elem_of_union, !elem_of_singleton. tauto.
Qed.

Lemma pdf_document_content_witness :
  exists temp,
    documents (snd (Frame.generate_pdf_barcode (W := obliging) first_settings
                      (str "A1") (str "Code128") (str "out") (str "f") blank))
    !! path_join (str "out") (str "f" ++ str ".pdf")
    = Some [DrawImage temp (PInt 72) (PInt 600) 300 100]
    /\ files (snd (Frame.generate_pdf_barcode (W := obliging) first_settings
                     (str "A1") (str "Code128") (str "out") (str "f") blank))
       = ({[ path_join (str "out") (str "f" ++ str ".pdf") ]} ∪ files blank) ∖ {[ temp ]}.
Proof.
  apply (proj1 (pdf_document_content ascii_only obliging) first_settings
           (str "A1") (str "Code128") (str "out") (str "f") blank true).
  vm_compute. reflexivity.
Defined.

(** X13: when a document generation raises, either nothing has changed, or
    the temporary image had been written and is still on disk, and the
    error is that of the canvas or of the deletion. *)
Theorem pdf_failure_leaves_temp_image (U : Unicode) (W : World) :
  (forall settings text barcode_type output_dir filename st e st',
     Frame.generate_pdf_barcode settings text barcode_type output_dir filename st
     = (Raise e, st') ->
     st' = st
     \/ exists code options temp,
          writer_save st code (str "temp_barcode") options = Some temp
          /\ temp ∈ files st'
          /\ exists p, e = CanvasError p \/ e = OSError p)
  /\ (forall cls text output_dir filename options st e st',
        Logic.generate_pdf_barcode cls text output_dir filename options st
        = (Raise e, st') ->
        st' = st
        \/ exists temp,
             writer_save st
               {| code_class := cls; code_text := text; code_writer := ImageWriter |}
               (str "temp_barcode") options = Some temp
             /\ temp ∈ files st'
             /\ exists p, e = CanvasError p \/ e = OSError p).
Proof.
  split.
  - intros * H. apply frame_pdf_outcome in H
      as [(e' & _ & ->)|(code & o & temp & Hw & _ & [(He & _)|(e' & He & Hin & Hp)])];
      [left; reflexivity | discriminate |].
    injection He as <-. right. exists code, o, temp. repeat split; assumption.
  - intros * H. apply logic_pdf_outcome in H
      as [(e' & _ & ->)|(temp & Hw & [(He & _)|(e' & He & Hin & Hp)])];
      [left; reflexivity | discriminate |].
    injection He as <-. right. exists temp. repeat split; assumption.
Qed.

Lemma pdf_failure_leaves_temp_image_witness :
  snd (Frame.generate_pdf_barcode (W := unsavable) first_settings
         (str "A1") (str "Code128") (str "out") (str "f") blank) = blank
  \/ exists code options temp,
       writer_save (World := unsavable) blank code (str "temp_barcode") options = Some temp
       /\ temp ∈ files (snd (Frame.generate_pdf_barcode (W := unsavable) first_settings
                               (str "A1") (str "Code128") (str "out") (str "f") blank))
       /\ exists p, CanvasError (str "out/f.pdf") = CanvasError p
                    \/ CanvasError (str "out/f.pdf") = OSError p.
Proof.
  apply (proj1 (pdf_failure_leaves_temp_image ascii_only unsavable) first_settings
           (str "A1") (str "Code128") (str "out") (str "f") blank).
  vm_compute. reflexivity.
Defined.

(** ** Settings across a restart *)

Section SettingsFacts.
Context {W : World}.

Lemma default_settings_complete : complete Frame.default_settings.
Proof.
  unfold complete, generator_fields, Frame.default_settings.
  repeat constructor; eexists; vm_compute; reflexivity.
Qed.

Lemma complete_union (saved settings : dict) :
  complete settings -> complete (saved ∪ settings).
Proof.
  unfold complete. apply List.Forall_impl. intros key [v Hv].
  destruct (saved !! key) as [w|] eqn:Hs.
  - exists w. apply lookup_union_Some_l. exact Hs.
  - exists v. rewrite lookup_union_r; assumption.
Qed.

Lemma update_pairs_keeps (pairs : list (pystr * pyval)) :
  forall (settings : dict) key,
    is_Some (settings !! key) -> is_Some (Frame.update_pairs settings pairs !! key).
Proof.
  unfold Frame.update_pairs.
  induction pairs as [|kv pairs IH]; intros settings key Hkey; [exact Hkey|].
  cbn [List.fold_left]. apply IH. apply lookup_insert_is_Some.
  destruct (decide (fst kv = key)) as [E|E]; [left; exact E | right; split; assumption].
Qed.

Lemma complete_update_pairs (settings : dict) pairs :
  complete settings -> complete (Frame.update_pairs settings pairs).
Proof.
  unfold complete. apply List.Forall_impl. intros key. apply update_pairs_keeps.
Qed.

Lemma load_settings_cases settings st :
  exists loaded,
    Frame.load_settings settings st = (Ok loaded, st)
    /\ ((exists saved, settings_file st = Some (JsonObject saved)
                      /\ settings_readable st = true /\ loaded = saved ∪ settings)
        \/ (exists applied, settings_file st = Some (JsonSequence applied)
                            /\ settings_readable st = true
                            /\ loaded = Frame.update_pairs settings applied)
        \/ ((settings_file st = None \/ settings_file st = Some Unreadable
             \/ settings_readable st = false) /\ loaded = settings)).
Proof.
  unfold Frame.load_settings.
  destruct (settings_file st) as [[saved|applied|]|] eqn:Ef.
  - destruct (settings_readable st) eqn:Er; eexists; (split; [reflexivity|]).
    + left. exists saved. repeat split.
    + right; right. split; [right; right; reflexivity | reflexivity].
  - destruct (settings_readable st) eqn:Er; eexists; (split; [reflexivity|]).
    + right; left. exists applied. repeat split.
    + right; right. split; [right; right; reflexivity | reflexivity].
  - destruct (settings_readable st); eexists; (split; [reflexivity|]);
      right; right; (split; [right; left; reflexivity | reflexivity]).
  - eexists. split; [reflexivity|]. right; right.
    split; [left; reflexivity | reflexivity].
Qed.

End SettingsFacts.

(** X14: a start never fails on the settings file and never changes it.
    The settings are the saved object laid over the defaults when the file
    holds a JSON object and can be read; the defaults with the pairs that
    [update] got to store, a later one over an earlier one, when it holds a
    JSON document that is not an object; and the defaults when the file is
    missing, cannot be opened or is not JSON.  In every case each default
    key is present, so the fields that the generators read are there. *)
Theorem start_settings (W : World) (st : State) :
  exists loaded,
    Frame.init_settings st = (Ok loaded, st)
    /\ ((exists saved, settings_file st = Some (JsonObject saved)
                      /\ settings_readable st = true
                      /\ loaded = saved ∪ Frame.default_settings)
        \/ (exists applied, settings_file st = Some (JsonSequence applied)
                            /\ settings_readable st = true
                            /\ loaded = List.fold_left (fun d kv => <[fst kv := snd kv]> d)
                                          applied Frame.default_settings)
        \/ ((settings_file st = None \/ settings_file st = Some Unreadable
             \/ settings_readable st = false)
            /\ loaded = Frame.default_settings))
    /\ dom Frame.default_settings ⊆ dom loaded
    /\ complete loaded.
Proof.
  unfold Frame.init_settings.
  destruct (load_settings_cases Frame.default_settings st) as (loaded & Hrun & Hcases).
  exists loaded. split; [exact Hrun|]. split; [exact Hcases|].
  destruct Hcases as [(saved & _ & _ & ->)|[(applied & _ & _ & ->)|(_ & ->)]].
  - split; [|apply complete_union, default_settings_complete].
    rewrite dom_union_L. apply union_subseteq_r.
  - split; [|apply complete_update_pairs, default_settings_complete].
    intros key Hkey. apply elem_of_dom, update_pairs_keeps, elem_of_dom. exact Hkey.
  - split; [reflexivity | apply default_settings_complete].
Qed.

(** A settings file that holds [[["font_size", 99], 5]]: the start has the
    font size 99 and every other default. *)
Example array_file_start :
  let run := Frame.init_settings (W := obliging)
               (set_settings_file (Some array_file) blank) in
  fst run = Ok (<[str "font_size" := PInt 99]> (Frame.default_settings (W := obliging)))
  /\ snd run = set_settings_file (Some array_file) blank.
Proof. split; reflexivity. Qed.

(** X15: what the settings tab saves is what the next start shows: each of
    the seven fields of the tab has the value of its control, and every other
    key has the value it had, or its default. *)
Theorem saved_controls_survive_restart (W : World) (settings : dict)
    (c : Frame.settings_controls) (st : State) :
  settings_writable st = true ->
  settings_readable (snd (Frame.on_save_settings settings c st)) = true ->
  exists loaded st',
    Frame.init_settings (snd (Frame.on_save_settings settings c st)) = (Ok loaded, st')
    /\ Forall (fun kv => loaded !! fst kv = Some (snd kv)) (control_fields c)
    /\ forall key, ~ In key (List.map fst (control_fields c)) ->
                   loaded !! key = (settings ∪ Frame.default_settings) !! key.
Proof.
  intros Hw Hr. unfold Frame.on_save_settings, bind, ret in *.
  unfold Frame.save_settings in *. rewrite Hw in *. cbn [snd] in *.
  unfold Frame.init_settings, Frame.load_settings. cbn [settings_file set_settings_file].
  rewrite Hr. eexists _, _. split; [reflexivity|]. split.
  - unfold control_fields.
    repeat apply List.Forall_cons; [..|apply List.Forall_nil]; cbn [fst snd];
      apply lookup_union_Some_l;
      repeat (rewrite lookup_insert_ne
                by (let H := fresh in intros H; vm_compute in H; discriminate H));
      apply lookup_insert_eq.
  - intros key Hkey. cbn [control_fields List.map fst] in Hkey.
    rewrite !lookup_union.
    rewrite !lookup_insert_ne by (intros <-; apply Hkey; simpl; tauto). reflexivity.
Qed.

Lemma saved_controls_survive_restart_witness :
  exists loaded st',
    Frame.init_settings (W := obliging)
      (snd (Frame.on_save_settings (W := obliging) first_settings entered_controls blank))
    = (Ok loaded, st')
    /\ Forall (fun kv => loaded !! fst kv = Some (snd kv)) (control_fields entered_controls)
    /\ forall key, ~ In key (List.map fst (control_fields entered_controls)) ->
                   loaded !! key
                   = (first_settings ∪ Frame.default_settings (W := obliging)) !! key.
Proof.
  apply (saved_controls_survive_restart obliging first_settings entered_controls blank);
    reflexivity.
Defined.

(** X16: [on_reset_settings] builds a dictionary without ['text_distance']
    and does not write the file; the generators still find their four
    fields; and once the exit has saved it, the next start shows every field
    of the reset and takes ['text_distance'] from the defaults. *)
Theorem reset_then_restart (W : World) (st : State) :
  settings_writable st = true ->
  settings_readable (snd (Frame.on_exit Frame.on_reset_settings st)) = true ->
  Frame.on_reset_settings !! str "text_distance" = None
  /\ complete Frame.on_reset_settings
  /\ exists loaded st',
       Frame.init_settings (snd (Frame.on_exit Frame.on_reset_settings st))
       = (Ok loaded, st')
       /\ loaded !! str "text_distance" = Some (PInt 5)
       /\ forall key v, Frame.on_reset_settings !! key = Some v -> loaded !! key = Some v.
Proof.
  intros Hw Hr. split; [reflexivity|]. split.
  { unfold complete, generator_fields. repeat constructor; eexists; vm_compute; reflexivity. }
  unfold Frame.on_exit, Frame.save_settings in *. rewrite Hw in *. cbn [snd] in *.
  unfold Frame.init_settings, Frame.load_settings. cbn [settings_file set_settings_file].
  rewrite Hr. eexists _, _. split; [reflexivity|]. split.
  - rewrite lookup_union_r by reflexivity. reflexivity.
  - intros key v Hk. apply lookup_union_Some_l. exact Hk.
Qed.

Lemma reset_then_restart_witness :
  Frame.on_reset_settings (W := obliging) !! str "text_distance" = None
  /\ complete (Frame.on_reset_settings (W := obliging))
  /\ exists loaded st',
       Frame.init_settings (W := obliging)
         (snd (Frame.on_exit (W := obliging) (Frame.on_reset_settings (W := obliging)) blank))
       = (Ok loaded, st')
       /\ loaded !! str "text_distance" = Some (PInt 5)
       /\ forall key v, Frame.on_reset_settings (W := obliging) !! key = Some v ->
                        loaded !! key = Some v.
Proof. apply (reset_then_restart obliging blank); reflexivity. Defined.

(** ** The grid of the combined document *)

Section GridFacts.
Context {W : World}.

Lemma calculate_layout_pure st r st' : Frame.calculate_layout st = (r, st') -> st' = st.
Proof.
  unfold Frame.calculate_layout. destruct A4 as [pw ph]. unfold bind, lift, ret. intros E.
  repeat split_stuck E; injection E as _ <-; reflexivity.
Qed.

Lemma spec_grid_positive pw ph :
  (1 <= spec_items_per_row pw)%Z /\ (1 <= spec_items_per_column ph)%Z
  /\ (1 <= spec_items_per_page pw ph)%Z.
Proof.
  unfold spec_items_per_page, spec_items_per_row, spec_items_per_column.
  repeat split; try apply Z.le_max_l.
  apply (Z.mul_le_mono_nonneg 1 _ 1 _); try lia; apply Z.le_max_l.
Qed.

End GridFacts.

(** X17: the layout has at least one item per row and per column, so the
    position of an item is never a division by zero; and every position that
    is computed lies in the grid: [i mod barcodes_per_page = row * per_row +
    col] with [row] below the rows of a page and [col] below the items of a
    row, and [x = 72 + col * 270]. *)
Theorem combined_grid_bounds (W : World) (st st' : State) (lay : Frame.layout) :
  Frame.calculate_layout st = (Ok lay, st') ->
  (1 <= Frame.barcodes_per_row lay)%Z
  /\ (1 <= Frame.barcodes_per_column lay)%Z
  /\ Frame.barcodes_per_page lay
     = (Frame.barcodes_per_row lay * Frame.barcodes_per_column lay)%Z
  /\ forall i s xy s',
       Frame.calculate_position lay i s = (Ok xy, s') ->
       exists row col y,
         (0 <= row < Frame.barcodes_per_column lay)%Z
         /\ (0 <= col < Frame.barcodes_per_row lay)%Z
         /\ (Z.of_nat i mod Frame.barcodes_per_page lay
             = row * Frame.barcodes_per_row lay + col)%Z
         /\ xy = (PInt (72 + col * 270), PFloat y).
Proof.
  intros H. apply calculate_layout_spec in H as (_ & Hh & Hr & Hc & Hp).
  destruct (spec_grid_positive (fst A4) (snd A4)) as (Pr & Pc & Pp).
  rewrite Hr, Hc, Hp. split; [exact Pr|]. split; [exact Pc|]. split; [reflexivity|].
  intros i s xy s' Hpos.
  apply (calculate_position_spec lay Hh Hr Hp) in Hpos as [_ ->].
  exists (spec_row (fst A4) (snd A4) i), (spec_col (fst A4) (snd A4) i), (spec_y (fst A4) (snd A4) i).
  unfold spec_row, spec_col, spec_page_position, spec_x.
  set (r := spec_items_per_row A4.1) in *. set (c := spec_items_per_column A4.2) in *.
  unfold spec_items_per_page in *. fold r c in Pp |- *.
  set (pp := (Z.of_nat i mod (r * c))%Z).
  assert (Hpp : (0 <= pp < r * c)%Z) by (apply Z.mod_pos_bound; lia).
  split; [|split; [apply Z.mod_pos_bound; lia|split]].
  - split; [apply Z.div_pos; lia|]. apply Z.div_lt_upper_bound; lia.
  - rewrite (Z.div_mod pp r) at 1 by lia. lia.
  - reflexivity.
Qed.

Lemma combined_grid_bounds_witness :
  (1 <= Frame.barcodes_per_row (fst_ok (Frame.calculate_layout (W := obliging) blank)))%Z
  /\ (1 <= Frame.barcodes_per_column (fst_ok (Frame.calculate_layout (W := obliging) blank)))%Z
  /\ Frame.barcodes_per_page (fst_ok (Frame.calculate_layout (W := obliging) blank))
     = (Frame.barcodes_per_row (fst_ok (Frame.calculate_layout (W := obliging) blank))
        * Frame.barcodes_per_column (fst_ok (Frame.calculate_layout (W := obliging) blank)))%Z
  /\ forall i s xy s',
       Frame.calculate_position
         (fst_ok (Frame.calculate_layout (W := obliging) blank)) i s = (Ok xy, s') ->
       exists row col y,
         (0 <= row < Frame.barcodes_per_column
                       (fst_ok (Frame.calculate_layout (W := obliging) blank)))%Z
         /\ (0 <= col < Frame.barcodes_per_row
                          (fst_ok (Frame.calculate_layout (W := obliging) blank)))%Z
         /\ (Z.of_nat i mod Frame.barcodes_per_page
                              (fst_ok (Frame.calculate_layout (W := obliging) blank))
             = row * Frame.barcodes_per_row
                       (fst_ok (Frame.calculate_layout (W := obliging) blank)) + col)%Z
         /\ xy = (PInt (72 + col * 270), PFloat y).
Proof.
  apply (combined_grid_bounds obliging blank blank). vm_compute. reflexivity.
Defined.

(** X18: positions repeat from page to page: the items of index [i] and
    [i + k * barcodes_per_page] get the same position. *)
Theorem combined_position_periodic (W : World) (st st' : State) (lay : Frame.layout)
    (i k : nat) (s : State) :
  Frame.calculate_layout st = (Ok lay, st') ->
  Frame.calculate_position lay (i + k * Z.to_nat (Frame.barcodes_per_page lay)) s
  = Frame.calculate_position lay i s.
Proof.
  intros H. apply calculate_layout_spec in H as (_ & _ & _ & _ & Hp).
  destruct (spec_grid_positive (fst A4) (snd A4)) as (_ & _ & Pp). rewrite <- Hp in Pp.
  unfold Frame.calculate_position.
  assert (Hmod : (Z.of_nat (i + k * Z.to_nat (Frame.barcodes_per_page lay))
                  mod Frame.barcodes_per_page lay
                  = Z.of_nat i mod Frame.barcodes_per_page lay)%Z).
  { rewrite Nat2Z.inj_add, Nat2Z.inj_mul, Z2Nat.id by lia. apply Z.mod_add. lia. }
  rewrite Hmod. reflexivity.
Qed.

Lemma combined_position_periodic_witness :
  Frame.calculate_position
    (fst_ok (Frame.calculate_layout (W := obliging) blank))
    (1 + 2 * Z.to_nat (Frame.barcodes_per_page
                         (fst_ok (Frame.calculate_layout (W := obliging) blank)))) blank
  = Frame.calculate_position
      (fst_ok (Frame.calculate_layout (W := obliging) blank)) 1 blank.
Proof.
  apply (combined_position_periodic obliging blank blank). vm_compute. reflexivity.
Defined.

(** ** The assembler never raises *)

Section CombinedTotal.
Context {U : Unicode} {W : World}.
Variable settings : dict.

Lemma combined_cases data barcode_type output_dir prefix st :
  exists b st',
    Frame.generate_combined_pdf settings data barcode_type output_dir prefix st = (Ok b, st')
    /\ (b = false ->
        documents st' = documents st
        /\ (HAS_PDF_SUPPORT = false -> st' = st)
        /\ (HAS_PDF_SUPPORT = true ->
            exists msgs e, console st' = console st ++ msgs ++ [CombinedError e])).
Proof.
  unfold Frame.generate_combined_pdf.
  destruct HAS_PDF_SUPPORT eqn:Hpdf; cbn [negb];
    [|exists false, st; split; [reflexivity|]; intros _; repeat split; congruence].
  unfold try_except.
  assert (Hfail : forall e s,
            documents s = documents st ->
            (exists msgs, console s = console st ++ msgs) ->
            exists b st',
              (print (CombinedError e);;; ret false) s = (Ok b, st')
              /\ (b = false ->
                  documents st' = documents st
                  /\ (true = false -> st' = st)
                  /\ (true = true ->
                      exists msgs e0, console st' = console st ++ msgs ++ [CombinedError e0]))).
  { intros e s Hd (msgs & Hc). eexists _, _. split; [reflexivity|]. intros _.
    split; [exact Hd|]. split; [discriminate|]. intros _.
    exists msgs, e. cbn [console set_console]. rewrite Hc, List.app_assoc. reflexivity. }
  unfold bind at 1. unfold Canvas at 1.
  destruct (canvas_new st _); [|apply Hfail; [reflexivity | exists []; rewrite List.app_nil_r; reflexivity]].
  unfold bind at 1. unfold subscript at 1.
  destruct (Frame.barcode_types !! barcode_type) as [cls|];
    [|apply Hfail; [reflexivity | exists []; rewrite List.app_nil_r; reflexivity]].
  unfold ret at 1. unfold bind at 1.
  match goal with
  | |- context [make_options ?s ?a ?b ?x] =>
      destruct (make_options s a b x) as [[options|e] s2] eqn:Eo;
        apply make_options_pure in Eo as ->
  end; [|apply Hfail; [reflexivity | exists []; rewrite List.app_nil_r; reflexivity]].
  unfold bind at 1.
  match goal with
  | |- context [Frame.calculate_layout ?x] =>
      destruct (Frame.calculate_layout x) as [[lay|e] s3] eqn:El
  end.
  2:{ apply calculate_layout_pure in El as ->.
      apply Hfail; [reflexivity | exists []; rewrite List.app_nil_r; reflexivity]. }
  apply calculate_layout_spec in El as (-> & Hh & Hr & _ & Hp).
  unfold bind at 1.
  match goal with
  | |- context [for_enumerate _ 0%nat data tt ?x] =>
      destruct (add_items_spec lay cls (List.length data) Hh Hr Hp options data 0%nat x
                  (path_join output_dir (prefix ++ str "combined_barcodes.pdf")) []
                  eq_refl)
        as (s4 & ops & msgs & Eloop & Hcan & Hcon & Hdoc & Hass)
  end.
  rewrite Eloop. unfold bind at 1. unfold canvas_save_doc at 1. rewrite Hcan.
  destruct (canvas_save s4 _ _).
  - eexists _, _. split; [reflexivity|]. discriminate.
  - apply Hfail; [exact Hdoc | exists msgs; exact Hcon].
Qed.

End CombinedTotal.

(** X19: the assembler never raises; when it returns [False] no document
    has been saved: without the document library nothing at all has changed,
    and with it the console ends with the line of the fatal error. *)
Theorem combined_false_saves_nothing (U : Unicode) (W : World) (settings : dict)
    (data : list pystr) (barcode_type output_dir prefix : pystr) (st : State) :
  exists b st',
    Frame.generate_combined_pdf settings data barcode_type output_dir prefix st = (Ok b, st')
    /\ (b = false ->
        documents st' = documents st
        /\ (HAS_PDF_SUPPORT = false -> st' = st)
        /\ (HAS_PDF_SUPPORT = true ->
            exists msgs e, console st' = console st ++ msgs ++ [CombinedError e])).
Proof. apply combined_cases. Qed.

(** Where the document cannot be saved: the three items are drawn, the
    error of the canvas is printed, no document exists. *)
Example combined_unsavable_sample :
  let run := Frame.generate_combined_pdf (W := unsavable) first_settings three_items
               (str "Code128") (str "out") (str "x_") blank in
  fst run = Ok false
  /\ console (snd run) = [CombinedError (CanvasError (str "out/x_combined_barcodes.pdf"))]
  /\ documents (snd run) = ∅
  /\ files (snd run) = ∅.
Proof. vm_compute. repeat split; reflexivity. Qed.

(** ** The preview *)

Section PreviewFacts.
Context {U : Unicode} {W : World}.
Variable settings : dict.

Lemma on_preview_cases entered barcode_type st :
  exists d st',
    Frame.on_preview settings entered barcode_type st = (Ok d, st')
    /\ documents st' = documents st
    /\ canvas st' = canvas st
    /\ (strip entered = [] -> d = Some Frame.PreviewNeedsText /\ st' = st)
    /\ (d = None ->
        exists code options temp,
          writer_save st code (str "temp_preview") options = Some temp
          /\ code_text code = strip entered
          /\ files st' = files st ∖ {[ temp ]})
    /\ (forall e, d = Some (Frame.ErrorPreview e) ->
        st' = st
        \/ exists code options temp,
             writer_save st code (str "temp_preview") options = Some temp
             /\ e = OSError temp /\ files st' = {[ temp ]} ∪ files st).
Proof.
  unfold Frame.on_preview.
  destruct (strip entered) as [|c text] eqn:Hstrip.
  { exists (Some Frame.PreviewNeedsText), st. split; [reflexivity|].
    repeat split; try reflexivity; try discriminate. }
  unfold Frame.show_preview, make_options. unfold_calls. unfold_monad.
  repeat match goal with
         | |- context [match ?x with _ => _ end] =>
             lazymatch x with
             | context [match _ with _ => _ end] => fail
             | _ => let E := fresh "E" in destruct x eqn:E; simpl
             end
         end;
    try match goal with
        | E : bool_decide _ = false |- _ =>
            apply bool_decide_eq_false in E; exfalso; apply E; set_solver
        end;
    eexists _, _; (split; [reflexivity|]); cbn [documents canvas set_files];
    (split; [reflexivity|]); (split; [reflexivity|]); (split; [discriminate|]);
    split.
  all: try (intros; discriminate).
  all: try (intros e [= <-]; left; reflexivity).
  all: try (intros _; eexists _, _, _; (split; [eassumption|]); (split; [reflexivity|]);
            cbn [files set_files]; apply set_eq; intros x;
            rewrite !elem_of_difference, !elem_of_union, !elem_of_singleton; tauto).
  all: intros e [= <-]; right; eexists _, _, _; (split; [eassumption|]);
       split; reflexivity.
Qed.

End PreviewFacts.

(** X20: the preview never raises and saves no document.  With a text
    that is blank once stripped it only asks for a text.  When it ends
    without a message the temporary image that the writer made has been
    deleted; when it ends with an error, either nothing has changed or the
    deletion failed and the temporary image is still on disk. *)
Theorem preview_cleans_up (U : Unicode) (W : World) (settings : dict)
    (entered barcode_type : pystr) (st : State) :
  exists d st',
    Frame.on_preview settings entered barcode_type st = (Ok d, st')
    /\ documents st' = documents st
    /\ canvas st' = canvas st
    /\ (strip entered = [] -> d = Some Frame.PreviewNeedsText /\ st' = st)
    /\ (d = None ->
        exists code options temp,
          writer_save st code (str "temp_preview") options = Some temp
          /\ code_text code = strip entered
          /\ files st' = files st ∖ {[ temp ]})
    /\ (forall e, d = Some (Frame.ErrorPreview e) ->
        st' = st
        \/ exists code options temp,
             writer_save st code (str "temp_preview") options = Some temp
             /\ e = OSError temp /\ files st' = {[ temp ]} ∪ files st).
Proof. apply on_preview_cases. Qed.

(** A preview that works, and one whose image cannot be deleted. *)
Example preview_samples :
  Frame.on_preview (U := ascii_only) (W := obliging) first_settings
    (str " A1 ") (str "Code128") blank = (Ok None, blank)
  /\ Frame.on_preview (U := ascii_only) (W := undeletable) first_settings
       (str " A1 ") (str "Code128") blank
     = (Ok (Some (Frame.ErrorPreview (OSError (str "temp_preview")))),
        set_files (fun _ => {[ str "temp_preview" ]}) blank).
Proof. split; vm_compute; reflexivity. Qed.

(** ** A run on A4 pages in which nothing fails *)

Section SmoothRun.
Context {U : Unicode} {W : World}.
Variable written : pystr -> pystr.
Hypothesis page_is_a4 : A4 = a4_page.
Hypothesis writer_names :
  forall s code name options,
    code_writer code = ImageWriter -> writer_save s code name options = Some (written name).
Hypothesis draw_works : forall s image, canvas_draw s image = true.
Hypothesis remove_works : forall s path, os_remove s path = true.

Lemma a4_calculate_layout s : Frame.calculate_layout s = (Ok a4_layout, s).
Proof. unfold Frame.calculate_layout. rewrite page_is_a4. reflexivity. Qed.

Lemma a4_calculate_position i s :
  Frame.calculate_position a4_layout i s
  = (Ok (PInt 72, PFloat (List.nth (Z.to_nat (Z.of_nat i mod 6)) a4_row_y S754_nan)), s).
Proof.
  unfold Frame.calculate_position.
  change (Frame.barcodes_per_page a4_layout) with 6%Z.
  assert (H : (0 <= Z.of_nat i mod 6 < 6)%Z) by (apply Z.mod_pos_bound; lia).
  set (pp := (Z.of_nat i mod 6)%Z) in *.
  assert (Hc : pp = 0%Z \/ pp = 1%Z \/ pp = 2%Z \/ pp = 3%Z \/ pp = 4%Z \/ pp = 5%Z) by lia.
  clearbody pp. destruct Hc as [->|[->|[->|[->|[->| ->]]]]]; reflexivity.
Qed.

Lemma smooth_add_item options cls total i text st p ops :
  accepts cls text = true ->
  canvas st = Some (p, ops) ->
  exists st',
    Frame.add_item a4_layout options cls total i text tt st = (Ok tt, st')
    /\ canvas st' = Some (p, ops ++ a4_item_ops written total i)
    /\ console st' = console st
    /\ documents st' = documents st
    /\ files st' = files st ∖ {[ written (temp_name i) ]}.
Proof.
  intros Hacc Hc. unfold Frame.add_item, try_except. unfold bind at 1.
  unfold construct. rewrite Hacc. unfold ret at 1. unfold bind at 1.
  unfold save at 1. rewrite writer_names by reflexivity. unfold bind at 1.
  rewrite a4_calculate_position. cbn [fst snd].
  unfold bind at 1. unfold drawImage at 1. cbn [canvas set_files]. rewrite Hc, draw_works.
  unfold bind at 1. unfold path_exists at 1. cbn [files set_canvas set_files].
  rewrite bool_decide_eq_true_2 by (apply elem_of_union_l, elem_of_singleton; reflexivity).
  unfold bind at 1. unfold remove at 1. rewrite remove_works.
  unfold bind at 1. change (Frame.barcodes_per_page a4_layout) with 6%Z.
  unfold a4_item_ops. fold (temp_name i).
  destruct (((Z.of_nat i + 1) mod 6 =? 0)%Z && (Z.of_nat i <? Z.of_nat total - 1)%Z).
  - unfold showPage at 1. cbn [canvas set_canvas set_files]. unfold modify.
    eexists. split; [reflexivity|].
    cbn [canvas console documents files set_gauge set_canvas set_files].
    rewrite <- List.app_assoc. repeat split; try reflexivity.
    apply set_eq. intros x.
    rewrite !elem_of_difference, !elem_of_union, !elem_of_singleton. tauto.
  - unfold ret at 1. unfold modify. eexists. split; [reflexivity|].
    cbn [canvas console documents files set_gauge set_canvas set_files].
    repeat split; try reflexivity.
    apply set_eq. intros x.
    rewrite !elem_of_difference, !elem_of_union, !elem_of_singleton. tauto.
Qed.

Lemma smooth_add_items options cls total items :
  Forall (fun text => accepts cls text = true) items ->
  forall i st p ops,
    canvas st = Some (p, ops) ->
    exists st',
      for_enumerate (Frame.add_item a4_layout options cls total) i items tt st = (Ok tt, st')
      /\ canvas st'
         = Some (p, ops ++ List.flat_map (a4_item_ops written total)
                             (List.seq i (List.length items)))
      /\ console st' = console st
      /\ documents st' = documents st
      /\ files st'
         = files st
           ∖ list_to_set (List.map (fun k => written (temp_name k))
                            (List.seq i (List.length items))).
Proof.
  induction 1 as [|text items Hacc _ IH]; intros i st p ops Hc.
  - exists st. cbn [for_enumerate List.length List.seq List.flat_map List.map].
    rewrite List.app_nil_r. split; [reflexivity|]. repeat split; try assumption.
    apply set_eq. intros x. rewrite elem_of_difference, list_to_set_nil, elem_of_empty.
    tauto.
  - cbn [for_enumerate]. unfold bind.
    destruct (smooth_add_item options cls total i text st p ops Hacc Hc)
      as (s1 & -> & Hc1 & Hcon1 & Hdoc1 & Hf1).
    destruct (IH (S i) s1 p _ Hc1) as (st' & -> & Hc' & Hcon' & Hdoc' & Hf').
    exists st'. split; [reflexivity|].
    rewrite Hc', Hcon', Hcon1, Hdoc', Hdoc1, Hf', Hf1.
    cbn [List.length List.seq List.flat_map List.map]. rewrite <- List.app_assoc.
    repeat split; try reflexivity.
    apply set_eq. intros x. rewrite list_to_set_cons.
    rewrite !elem_of_difference, !elem_of_union, !elem_of_singleton. tauto.
Qed.

End SmoothRun.

(** X21: on A4 pages, when the barcode class accepts every text, the image
    writer makes its file for every name it is handed and calls it
    [written name] (python-barcode appends [".png"]), and the canvas and the
    deletion work, the assembler returns [True] and the document holds the
    image of every item in the order of the input, six to a page, one per row
    at [x = 72], with a page break after every sixth item but the last;
    nothing is printed, and of the files only the document is new: every
    temporary image has been deleted under the name the writer gave it. *)
Theorem smooth_a4_run (U : Unicode) (W : World) (settings : dict) (data : list pystr)
    (barcode_type output_dir prefix : pystr) (cls : barcode_class) (st : State)
    (written : pystr -> pystr) :
  A4 = a4_page ->
  HAS_PDF_SUPPORT = true ->
  (forall s code name options,
     code_writer code = ImageWriter -> writer_save s code name options = Some (written name)) ->
  (forall s path, canvas_new s path = true) ->
  (forall s image, canvas_draw s image = true) ->
  (forall s path ops, canvas_save s path ops = true) ->
  (forall s path, os_remove s path = true) ->
  Frame.barcode_types !! barcode_type = Some cls ->
  complete settings ->
  Forall (fun text => accepts cls text = true) data ->
  exists st',
    Frame.generate_combined_pdf settings data barcode_type output_dir prefix st
    = (Ok true, st')
    /\ documents st' !! path_join output_dir (prefix ++ str "combined_barcodes.pdf")
       = Some (a4_document written (List.length data))
    /\ console st' = console st
    /\ files st'
       = {[ path_join output_dir (prefix ++ str "combined_barcodes.pdf") ]}
         ∪ (files st
            ∖ list_to_set (List.map (fun k => written (temp_name k))
                             (List.seq 0 (List.length data)))).
Proof.
  intros Hpage Hpdf Hwriter Hnew Hdraw Hsave Hremove Hcls Hset Hacc.
  destruct (make_options_complete settings f5_0 f6_5 Hset) as (options & Hopt).
  unfold Frame.generate_combined_pdf. rewrite Hpdf. cbn [negb].
  unfold try_except, bind at 1. unfold Canvas at 1. rewrite Hnew.
  unfold bind at 1. rewrite (subscript_known _ _ _ _ Hcls).
  unfold bind at 1. rewrite Hopt. unfold bind at 1.
  rewrite (a4_calculate_layout Hpage). unfold bind at 1.
  match goal with
  | |- context [for_enumerate _ 0%nat data tt ?x] =>
      destruct (smooth_add_items written Hwriter Hdraw Hremove options cls
                  (List.length data) data Hacc 0%nat x
                  (path_join output_dir (prefix ++ str "combined_barcodes.pdf")) []
                  eq_refl)
        as (s4 & Eloop & Hcan & Hcon & Hdoc & Hfiles)
  end.
  rewrite Eloop. unfold bind at 1. unfold canvas_save_doc at 1. rewrite Hcan, Hsave.
  eexists. split; [reflexivity|].
  cbn [documents console files set_documents set_files].
  split; [apply lookup_insert_eq|]. split; [exact Hcon|]. rewrite Hfiles. reflexivity.
Qed.

Lemma smooth_a4_run_witness :
  exists st',
    Frame.generate_combined_pdf (W := appending) first_settings eight_items
      (str "Code128") (str "out") (str "x_") blank
    = (Ok true, st')
    /\ documents st' !! path_join (str "out") (str "x_" ++ str "combined_barcodes.pdf")
       = Some (a4_document png_name (List.length eight_items))
    /\ console st' = console blank
    /\ files st'
       = {[ path_join (str "out") (str "x_" ++ str "combined_barcodes.pdf") ]}
         ∪ (files blank
            ∖ list_to_set (List.map (fun k => png_name (temp_name k))
                             (List.seq 0 (List.length eight_items)))).
Proof.
  apply (smooth_a4_run ascii_only appending first_settings eight_items
           (str "Code128") (str "out") (str "x_") Code128 blank png_name);
    try reflexivity.
  - intros s [c t w] name options Hw. simpl in Hw. rewrite Hw. reflexivity.
  - unfold complete. repeat constructor; vm_compute; eexists; reflexivity.
  - repeat constructor.
Defined.

(** With the writer of python-barcode the document of eight items holds the
    images [temp_barcode_0.png] to [temp_barcode_7.png]. *)
Example eight_items_document_png :
  documents
    (snd (Frame.generate_combined_pdf (W := appending) first_settings eight_items
            (str "Code128") (str "out") (str "x_") blank))
  !! str "out/x_combined_barcodes.pdf"
  = Some [ a4_draw "temp_barcode_0.png" 0; a4_draw "temp_barcode_1.png" 1;
           a4_draw "temp_barcode_2.png" 2; a4_draw "temp_barcode_3.png" 3;
           a4_draw "temp_barcode_4.png" 4; a4_draw "temp_barcode_5.png" 5; ShowPage;
           a4_draw "temp_barcode_6.png" 0; a4_draw "temp_barcode_7.png" 1 ].
Proof. vm_compute. reflexivity. Qed.

(** ** The handler of a single barcode *)

(** X22: the handler of a single barcode always ends with a message box:
    the request for a text when the entry is blank once stripped (nothing is
    generated), the confirmation when the generator returns, the error when it
    raises; and an error on an image format leaves the machine as it was. *)
Theorem single_always_answers (U : Unicode) (W : World) (settings : dict)
    (entered barcode_type output_format output_dir : pystr) (st : State) :
  exists d st',
    Frame.on_generate_single settings entered barcode_type output_format output_dir st
    = (Ok (Some d), st')
    /\ (strip entered = [] <-> d = Frame.PleaseEnterText)
    /\ (d = Frame.PleaseEnterText -> st' = st)
    /\ (forall dir, d = Frame.BarcodeSaved dir ->
          dir = output_dir
          /\ Frame.generate_barcode settings (strip entered) barcode_type output_format
               output_dir None st = (Ok true, st'))
    /\ (forall e, d = Frame.ErrorGenerating e ->
          fst (Frame.generate_barcode settings (strip entered) barcode_type output_format
                 output_dir None st) = Raise e
          /\ (bool_decide (output_format = str "PDF") && HAS_PDF_SUPPORT = false ->
              st' = st)).
Proof.
  unfold Frame.on_generate_single.
  destruct (strip entered) as [|c text] eqn:Hstrip.
  { exists Frame.PleaseEnterText, st. split; [reflexivity|].
    repeat split; try reflexivity; try discriminate. }
  unfold try_except, bind.
  destruct (Frame.generate_barcode settings (c :: text) barcode_type output_format
              output_dir None st) as [[b|e] s] eqn:Egen.
  - pose proof (frame_generate_true settings _ _ _ _ _ _ _ _ Egen) as ->.
    exists (Frame.BarcodeSaved output_dir), s. split; [reflexivity|].
    split; [split; discriminate|]. split; [discriminate|].
    split; [intros dir [= <-]; split; reflexivity | discriminate].
  - exists (Frame.ErrorGenerating e), s. split; [reflexivity|].
    split; [split; discriminate|]. split; [discriminate|].
    split; [discriminate|]. intros e' [= <-]. split; [reflexivity|].
    intros Hfmt.
    destruct (frame_image_cases settings _ _ _ _ _ _ _ _ Hfmt Egen)
      as [(Hok & _)|(e'' & _ & Hst)]; [discriminate | exact Hst].
Qed.

(** An entry with spaces around, and an entry of spaces only. *)
Example single_samples :
  Frame.on_generate_single (U := ascii_only) (W := obliging) first_settings
    (str " A1 ") (str "Code128") (str "PNG") (str "out") blank
  = (Ok (Some (Frame.BarcodeSaved (str "out"))),
     set_files (fun _ => {[ str "out/barcode_A1_20250101_120000.png" ]}) blank)
  /\ Frame.on_generate_single (U := ascii_only) (W := obliging) first_settings
       (str "   ") (str "Code128") (str "PNG") (str "out") blank
     = (Ok (Some Frame.PleaseEnterText), blank).
Proof. split; vm_compute; reflexivity. Qed.
